(** * Personal Health SMS Bot (app.py): a shallow embedding and its properties

    The Flask application has three routes: the health check, the cron
    trigger of the daily check-in and the webhook that receives forwarded
    SMS.  This development embeds
    - the text handling of the webhook: [str.strip], [str.lower], the
      substring test and the regular expression of the urgency rating;
    - the collaborators (the Google sheet, the push gateway, the logger,
      the clock and the environment variables) as an explicit world and
      an environment, threaded through a small state-and-exception monad;
    - the functions of app.py under their own names.
    The properties follow: first of the text functions, then of single
    runs, then of the handlers as a whole. *)

From Stdlib Require Import ZArith NArith List Bool Lia Ascii String.
From stdpp Require Import base option list gmap.

Local Open Scope N_scope.

(** ** Text

    A Python [str] is a sequence of Unicode code points.  A code point is
    its number; a text is the list of its code points. *)

Abbreviation cp := N (only parsing).
Abbreviation str := (list N) (only parsing).

(** An ASCII literal of the source, as code points. *)
Definition text (s : string) : str :=
  map N_of_ascii (list_ascii_of_string s).
Arguments text s%_string.

(** Python consults the Unicode character database for code points above
    127.  The three look-ups the program depends on are kept abstract:
    everything below holds for whatever these tables contain.
    [uni_lower before c after] is the lower-case form of [c] standing
    in_range [before] (nearest code point first) and [after]; the context
    is there because [str.lower] treats a final capital sigma specially. *)
Class Unicode := {
  uni_lower : str -> cp -> str -> str;
  uni_isspace : cp -> bool;
  uni_isalnum : cp -> bool
}.

(** The tables that know no character beyond ASCII. *)
Definition ascii_tables : Unicode := {|
  uni_lower := fun _ c _ => [c];
  uni_isspace := fun _ => false;
  uni_isalnum := fun _ => false
|}.

Section Text.
Context {U : Unicode}.

Definition in_range (lo hi c : cp) : bool := (lo <=? c) && (c <=? hi).

Definition ascii_lower (c : cp) : cp :=
  if in_range 65 90 c then c + 32 else c.

(** [str.lower()] *)
Fixpoint lower_from (before s : str) : str :=
  match s with
  | [] => []
  | c :: s' =>
      (if c <? 128 then [ascii_lower c] else uni_lower before c s')
        ++ lower_from (c :: before) s'
  end.

Definition py_lower (s : str) : str := lower_from [] s.

(** [str.isspace] on one code point: tab, newline, vertical tab, form
    feed, carriage return, the four separators 28..31 and the space. *)
Definition py_isspace (c : cp) : bool :=
  if c <? 128 then in_range 9 13 c || in_range 28 31 c || (c =? 32)
  else uni_isspace c.

Fixpoint lstrip (s : str) : str :=
  match s with
  | [] => []
  | c :: s' => if py_isspace c then lstrip s' else s
  end.

Definition rstrip (s : str) : str := rev (lstrip (rev s)).

(** [str.strip()] *)
Definition py_strip (s : str) : str := rstrip (lstrip s).

Fixpoint starts_with (p s : str) : bool :=
  match p, s with
  | [], _ => true
  | _ :: _, [] => false
  | a :: p', b :: s' => (a =? b) && starts_with p' s'
  end.

(** [needle in s] *)
Fixpoint contains (needle s : str) : bool :=
  starts_with needle s ||
  match s with
  | [] => false
  | _ :: s' => contains needle s'
  end.

(** [sep.join(parts)] *)
Fixpoint join (sep : str) (parts : list str) : str :=
  match parts with
  | [] => []
  | [p] => p
  | p :: rest => p ++ sep ++ join sep rest
  end.

(** [l[start:]] with Python's treatment of negative and large indices. *)
Definition slice_from {A} (start : Z) (l : list A) : list A :=
  let n := Z.of_nat (length l) in
  let i := if (start <? 0)%Z then Z.max (start + n) 0 else Z.min start n in
  drop (Z.to_nat i) l.

(** ** The regular expression of the urgency rating

    [re.search(r'\b(10|[1-9])\b', body)]: a backtracking matcher for the
    fragment of [re] the pattern uses.  A word character is [\w] of a
    [str] pattern: alphanumeric or the underscore. *)

Definition is_word (c : cp) : bool :=
  if c <? 128
  then in_range 48 57 c || in_range 65 90 c || in_range 97 122 c || (c =? 95)
  else uni_isalnum c.

Inductive regex :=
| Boundary
| Chr (c : cp)
| Range (lo hi : cp)
| Cat (r1 r2 : regex)
| Alt (r1 r2 : regex)
| Group (r : regex).

(** The matcher's position: the code point just before it, the text
    consumed since the match began (latest first), the text ahead, and
    what group 1 has captured. *)
Record cursor := {
  prev : option cp;
  taken : str;
  ahead : str;
  group1 : option str
}.

Definition word_opt (o : option cp) : bool :=
  match o with Some c => is_word c | None => false end.

Definition at_boundary (c : cursor) : bool :=
  xorb (word_opt (prev c)) (word_opt (head (ahead c))).

Definition advance (c : cursor) : option (cp * cursor) :=
  match ahead c with
  | [] => None
  | x :: s => Some (x, {| prev := Some x; taken := x :: taken c;
                          ahead := s; group1 := group1 c |})
  end.

Fixpoint exec {A} (r : regex) (c : cursor) (k : cursor -> option A)
  : option A :=
  match r with
  | Boundary => if at_boundary c then k c else None
  | Chr x =>
      match advance c with
      | Some (y, c') => if y =? x then k c' else None
      | None => None
      end
  | Range lo hi =>
      match advance c with
      | Some (y, c') => if in_range lo hi y then k c' else None
      | None => None
      end
  | Cat r1 r2 => exec r1 c (fun c' => exec r2 c' k)
  | Alt r1 r2 =>
      match exec r1 c k with
      | Some a => Some a
      | None => exec r2 c k
      end
  | Group r0 =>
      exec r0 c (fun c' =>
        k {| prev := prev c'; taken := taken c'; ahead := ahead c';
             group1 := Some (rev (take (length (taken c') - length (taken c))
                                       (taken c'))) |})
  end.

(** A match object: where the match starts and [group(1)]. *)
Record re_match := { m_start : nat; m_group1 : str }.

Definition match_here (r : regex) (before : option cp) (s : str)
  : option str :=
  exec r {| prev := before; taken := []; ahead := s; group1 := None |}
       (fun c => Some (default [] (group1 c))).

Fixpoint search_from (r : regex) (before : option cp) (s : str) (pos : nat)
  : option re_match :=
  match match_here r before s with
  | Some g => Some {| m_start := pos; m_group1 := g |}
  | None =>
      match s with
      | [] => None
      | c :: s' => search_from r (Some c) s' (S pos)
      end
  end.

(** [re.search(r, s)] *)
Definition re_search (r : regex) (s : str) : option re_match :=
  search_from r None s 0.

(** [r'\b(10|[1-9])\b'] *)
Definition urgency_pattern : regex :=
  Cat Boundary
      (Cat (Group (Alt (Cat (Chr 49) (Chr 48)) (Range 49 57))) Boundary).

(** [int(s)] on ASCII decimal digits; anything else is a [ValueError]. *)
Fixpoint int_digits (acc : Z) (s : str) : option Z :=
  match s with
  | [] => Some acc
  | c :: s' =>
      if in_range 48 57 c
      then int_digits (10 * acc + Z.of_N (c - 48))%Z s'
      else None
  end.

Definition py_int (s : str) : option Z :=
  match s with
  | [] => None
  | _ => int_digits 0%Z s
  end.

End Text.

(** The decimal text of an integer, as [str(n)] writes it. *)
Fixpoint uint_digits (d : Decimal.uint) : str :=
  match d with
  | Decimal.Nil => []
  | Decimal.D0 d' => 48 :: uint_digits d'
  | Decimal.D1 d' => 49 :: uint_digits d'
  | Decimal.D2 d' => 50 :: uint_digits d'
  | Decimal.D3 d' => 51 :: uint_digits d'
  | Decimal.D4 d' => 52 :: uint_digits d'
  | Decimal.D5 d' => 53 :: uint_digits d'
  | Decimal.D6 d' => 54 :: uint_digits d'
  | Decimal.D7 d' => 55 :: uint_digits d'
  | Decimal.D8 d' => 56 :: uint_digits d'
  | Decimal.D9 d' => 57 :: uint_digits d'
  end.

Definition decimal (n : Z) : str :=
  match Z.to_int n with
  | Decimal.Pos d => uint_digits d
  | Decimal.Neg d => 45 :: uint_digits d
  end.

(** ** [urllib.parse.quote]

    The text is encoded in UTF-8 and every byte outside the unreserved
    set and the slash is written as a percent sign and two upper-case
    hexadecimal digits.  (Text is taken to hold Unicode scalar values.) *)

Definition utf8 (c : cp) : list N :=
  if c <? 0x80 then [c]
  else if c <? 0x800 then [0xC0 + c / 64; 0x80 + c mod 64]
  else if c <? 0x10000
  then [0xE0 + c / 4096; 0x80 + (c / 64) mod 64; 0x80 + c mod 64]
  else [0xF0 + c / 262144; 0x80 + (c / 4096) mod 64;
        0x80 + (c / 64) mod 64; 0x80 + c mod 64].

Definition hex_digit (n : N) : cp :=
  if n <? 10 then 48 + n else 55 + n.

Definition always_safe (b : N) : bool :=
  in_range 65 90 b || in_range 97 122 b || in_range 48 57 b
  || (b =? 95) || (b =? 46) || (b =? 45) || (b =? 126).

Definition quote_byte (b : N) : str :=
  if always_safe b || (b =? 47) then [b]
  else [37; hex_digit (b / 16); hex_digit (b mod 16)].

Definition quote (s : str) : str :=
  flat_map quote_byte (flat_map utf8 s).

(** ** The world around the handlers *)

Inductive exn_class := ValueError | JSONDecodeError | AttributeError | OtherError.

(** An exception: its class and [str(e)]. *)
Record exn := { e_class : exn_class; e_text : str }.

(** What the process reads once at start-up, and how its collaborators
    answer during one request.
    - the four environment variables ([os.environ.get] gives [None] for
      an absent one);
    - [datetime.now()] as the two texts [strftime] makes of it;
    - the exception, if any, met while parsing the credentials,
      authorising and opening the spreadsheet;
    - the exception, if any, of [append_row] and of [get_all_values];
    - the push gateway: [None] when [requests.get] and
      [raise_for_status] pass, the text of the [RequestException]
      otherwise. *)
Record Env := {
  GOOGLE_CREDENTIALS : option str;
  ANDROID_SEND_URL : option str;
  CRON_SECRET : option str;
  GOOGLE_SHEET_ID : option str;
  now_date : str;
  now_time : str;
  open_fault : option exn;
  append_fault : option exn;
  read_fault : option exn;
  http_get : str -> option str
}.

(** [not v] is false for a variable that is set and not empty. *)
Definition is_set (v : option str) : bool :=
  match v with
  | Some (_ :: _) => true
  | _ => false
  end.

(** [f"{v}"] of such a variable. *)
Definition fmt_var (v : option str) : str := default (text "None") v.

Inductive send_result :=
| NotConfigured
| Delivered (url : str)
| Failed (url err : str).

(** The calls the handlers issue to the spreadsheet and to the notifier. *)
Inductive event :=
| StoreAppend (date time body : str) (urgency : Z)
| StoreRead
| Send (message : str) (result : send_result).

Inductive level := Info | Error.

(** The rows of the worksheet as [get_all_values] returns them, the calls
    issued so far (oldest first) and the log. *)
Record World := {
  sheet : list (list str);
  trace : list event;
  logs : list (level * str)
}.

(** ** Computations: state and exceptions *)

Inductive outcome (A : Type) :=
| Returned (a : A)
| Raised (e : exn).
Arguments Returned {A} a.
Arguments Raised {A} e.

Definition M (A : Type) : Type := World -> outcome A * World.

Definition ret {A} (a : A) : M A := fun w => (Returned a, w).

Definition raise {A} (e : exn) : M A := fun w => (Raised e, w).

Definition bind {A B} (m : M A) (k : A -> M B) : M B :=
  fun w =>
    match m w with
    | (Returned a, w') => k a w'
    | (Raised e, w') => (Raised e, w')
    end.

(** [try: m  except Exception as e: h e] *)
Definition try_except {A} (m : M A) (h : exn -> M A) : M A :=
  fun w =>
    match m w with
    | (Returned a, w') => (Returned a, w')
    | (Raised e, w') => h e w'
    end.

Notation "'let*' x ':=' c 'in' k" := (bind c (fun x => k))
  (at level 10, x name, c at level 100, k at level 200).

Definition emit (e : event) : M unit :=
  fun w => (Returned tt,
            {| sheet := sheet w; trace := trace w ++ [e]; logs := logs w |}).

Definition log (l : level) (msg : str) : M unit :=
  fun w => (Returned tt,
            {| sheet := sheet w; trace := trace w; logs := logs w ++ [(l, msg)] |}).

(** ** Requests and responses *)

(** A value of the JSON payload as the handler can observe it: a string,
    or a value of another type, of which the handler sees the type's name
    (in the [AttributeError] of a missing method) and [str(v)]. *)
Inductive pyval :=
| VStr (s : str)
| VOther (type_name shown : str).

(** What [request.get_json()] returns: a dict, or a value of another type
    with its truth value. *)
Inductive payload :=
| PDict (fields : gmap (list N) pyval)
| POther (type_name : str) (truth : bool).

(** A POST to the webhook: [get_json] returns or raises. *)
Inductive json_request :=
| Parsed (data : payload)
| Unparsed (e : exn).

Inductive jvalue :=
| JStr (s : str)
| JInt (n : Z)
| JList (l : list str).

(** [jsonify(...)] with its status code. *)
Record Response := {
  status_code : Z;
  json : list (string * jvalue)
}.

Definition jsonify (code : Z) (fields : list (string * jvalue)) : Response :=
  {| status_code := code; json := fields |}.

(** One member of the JSON object: a key with a value, and the common
    case of a key with a literal of the source. *)
Definition member (key : string) (v : jvalue) : string * jvalue := (key, v).
Arguments member key%_string v.

Definition lit (key value : string) : string * jvalue :=
  (key, JStr (text value)).
Arguments lit (key value)%_string.

Definition no_attribute (type_name : str) (attr : string) : exn :=
  {| e_class := AttributeError;
     e_text := text "'" ++ type_name ++ text "' object has no attribute '"
               ++ text attr ++ text "'" |}.
Arguments no_attribute type_name attr%_string.

(** [not data] is true for the empty dict. *)
Definition truthy (data : payload) : bool :=
  match data with
  | PDict fields => negb (bool_decide (fields = ∅))
  | POther _ b => b
  end.

(** [data.get(key, dflt)] *)
Definition py_get (data : payload) (key : string) (dflt : pyval) : M pyval :=
  match data with
  | PDict fields => ret (default dflt (fields !! text key))
  | POther ty _ => raise (no_attribute ty "get")
  end.
Arguments py_get data key%_string dflt.

(** [f"{v}"] *)
Definition py_format (v : pyval) : str :=
  match v with
  | VStr s => s
  | VOther _ shown => shown
  end.

(** One of the dicts [get_last_entries] returns. *)
Record entry := {
  date : str;
  time : str;
  body : str;
  urgency : str
}.

(** The non-ASCII marks of the source's literals, code point by code
    point as the file has them. *)
Definition chart_mark : str := [0xF0; 0x178; 0x201C; 0x160].
Definition clipboard_mark : str := [0xF0; 0x178; 0x201C; 0x2039].
Definition bullet_mark : str := [0xE2; 0x20AC; 0xA2].
Definition check_mark : str := [0xE2; 0x153; 0x2026].

Definition newline : str := [10].

Section Handlers.
Context {U : Unicode}.

(** *** Google Sheets (app.py, lines 69-210) *)

(** What is observed of [get_google_sheet] is whether it raises. *)
Definition get_google_sheet (env : Env) : M unit :=
  if negb (is_set (GOOGLE_CREDENTIALS env)) then
    raise {| e_class := ValueError;
             e_text := text "GOOGLE_CREDENTIALS environment variable not set" |}
  else if negb (is_set (GOOGLE_SHEET_ID env)) then
    raise {| e_class := ValueError;
             e_text := text "GOOGLE_SHEET_ID environment variable not set" |}
  else
    match open_fault env with
    | Some e => raise e
    | None => ret tt
    end.

(** [sheet.append_row(row)]: the row goes after the last one, and the
    number comes back from the sheet as its decimal text.  A call that
    raises leaves the sheet as it was. *)
Definition append_row (env : Env) (d t b : str) (u : Z) : M unit :=
  let* _ := emit (StoreAppend d t b u) in
  match append_fault env with
  | Some e => raise e
  | None =>
      fun w => (Returned tt,
                {| sheet := sheet w ++ [[d; t; b; decimal u]];
                   trace := trace w; logs := logs w |})
  end.

(** [sheet.get_all_values()] *)
Definition get_all_values (env : Env) : M (list (list str)) :=
  let* _ := emit StoreRead in
  match read_fault env with
  | Some e => raise e
  | None => fun w => (Returned (sheet w), w)
  end.

Definition append_symptom_log (env : Env) (b : str) (u : Z) : M bool :=
  let* _ := get_google_sheet env in
  let* _ := append_row env (now_date env) (now_time env) b u in
  ret true.

(** The loop over [last_rows]: a row of at least four cells becomes an
    entry, a shorter one is passed over. *)
Fixpoint entries_of (rows : list (list str)) : list entry :=
  match rows with
  | [] => []
  | (d :: t :: b :: u :: _) :: rest =>
      {| date := d; time := t; body := b; urgency := u |} :: entries_of rest
  | _ :: rest => entries_of rest
  end.

Definition get_last_entries (env : Env) (count : Z) : M (list entry) :=
  let* _ := get_google_sheet env in
  let* all_values := get_all_values env in
  if (length all_values <=? 1)%nat then ret []
  else
    let data_rows := drop 1 all_values in
    let last_rows :=
      if (count <=? Z.of_nat (length data_rows))%Z
      then slice_from (- count) data_rows
      else data_rows in
    ret (entries_of last_rows).

Definition get_sheet_url (env : Env) : str :=
  text "https://docs.google.com/spreadsheets/d/" ++ fmt_var (GOOGLE_SHEET_ID env).

(** *** Sending an SMS (app.py, lines 216-259) *)

(** The address [requests.get] is called with. *)
Definition push_url (url message_text : str) : str :=
  let encoded_message := quote message_text in
  let separator := if contains (text "?") url then text "&" else text "?" in
  url ++ separator ++ text "text=" ++ encoded_message.

Definition send_sms_via_android (env : Env) (message_text : str) : M bool :=
  match ANDROID_SEND_URL env with
  | Some (c :: rest) =>
      let full_url := push_url (c :: rest) message_text in
      match http_get env full_url with
      | None =>
          let* _ := emit (Send message_text (Delivered full_url)) in
          let* _ := log Info (text "SMS sent successfully: "
                              ++ take 50 message_text ++ text "...") in
          ret true
      | Some err =>
          let* _ := emit (Send message_text (Failed full_url err)) in
          let* _ := log Error (text "Failed to send SMS via Android: " ++ err) in
          ret false
      end
  | _ =>
      let* _ := log Error (text "ANDROID_SEND_URL not configured") in
      let* _ := emit (Send message_text NotConfigured) in
      ret false
  end.

(** *** Routes (app.py, lines 265-412) *)

Definition index : M Response :=
  ret (jsonify 200
         [lit "status" "ok";
          lit "service" "Personal Health SMS Bot";
          member "endpoints"
            (JList [text "GET /trigger-daily-checkin?secret=YOUR_SECRET";
                    text "POST /android-webhook"])]).

Definition checkin_prompt : str :=
  text "How were your symptoms today? Rate urgency (1-10) and describe.".

(** [provided_secret] is [request.args.get("secret")]. *)
Definition trigger_daily_checkin (env : Env) (provided_secret : option str)
  : M Response :=
  if negb (is_set (CRON_SECRET env)) then
    ret (jsonify 500 [lit "error" "CRON_SECRET not configured on server"])
  else if negb (bool_decide (provided_secret = CRON_SECRET env)) then
    ret (jsonify 403 [lit "error" "Invalid or missing secret"])
  else
    let message := checkin_prompt in
    let* success := send_sms_via_android env message in
    if success then
      ret (jsonify 200 [lit "status" "success";
                        lit "message" "Daily check-in sent"])
    else
      ret (jsonify 500 [lit "status" "error";
                        lit "message" "Failed to send SMS"]).

(** The texts the webhook sends. *)
Definition link_message (env : Env) : str :=
  chart_mark ++ text " Your symptom log: " ++ get_sheet_url env.

Definition summary_line (e : entry) : str :=
  bullet_mark ++ text " " ++ date e ++ text ": " ++ take 30 (body e)
    ++ text "... (Urgency: " ++ urgency e ++ text ")".

Definition summary_title : str := clipboard_mark ++ text " Last 3 entries:".

Definition no_entries_message : str := text "No symptom entries recorded yet.".

Definition logged_message : str := text "Logged. " ++ check_mark.

Definition help_message : str :=
  text "I didn't understand that. Send:" ++ newline
  ++ bullet_mark ++ text " Symptoms with urgency 1-10 to log" ++ newline
  ++ bullet_mark ++ text " 'Link' for spreadsheet URL" ++ newline
  ++ bullet_mark ++ text " 'Summary' for recent entries".

(** [.strip()] of the value under ["body"] *)
Definition strip_value (v : pyval) : M str :=
  match v with
  | VStr s => ret (py_strip s)
  | VOther ty _ => raise (no_attribute ty "strip")
  end.

(** [request.get_json()] *)
Definition get_json (req : json_request) : M payload :=
  match req with
  | Parsed data => ret data
  | Unparsed e => raise e
  end.

(** The four branches of the webhook, as the source marks them. *)

(** Branch B, retrieval of the link (lines 347-353) *)
Definition branch_link (env : Env) : M Response :=
  let sheet_url := get_sheet_url env in
  let* _ := send_sms_via_android env
              (chart_mark ++ text " Your symptom log: " ++ sheet_url) in
  ret (jsonify 200 [lit "status" "success"; lit "action" "sent_link"]).

(** Branch B, retrieval of the summary (lines 356-374) *)
Definition branch_summary (env : Env) : M Response :=
  let* entries := get_last_entries env 3 in
  let* _ :=
    match entries with
    | [] => send_sms_via_android env no_entries_message
    | _ =>
        let summary_lines := summary_title :: map summary_line entries in
        let summary_text := join newline summary_lines in
        send_sms_via_android env summary_text
    end in
  ret (jsonify 200 [lit "status" "success"; lit "action" "sent_summary";
                    member "entries_count" (JInt (Z.of_nat (length entries)))]).

(** Branch A, data entry, once the rating has been found (lines 380-393) *)
Definition branch_data_entry (env : Env) (body : str) (urgency_match : re_match)
  : M Response :=
  match py_int (m_group1 urgency_match) with
  | Some urgency =>
      let* _ := append_symptom_log env body urgency in
      let* _ := send_sms_via_android env logged_message in
      ret (jsonify 200 [lit "status" "success"; lit "action" "logged_symptom";
                        member "urgency" (JInt urgency)])
  | None =>
      raise {| e_class := ValueError;
               e_text := text "invalid literal for int() with base 10" |}
  end.

(** The fallback for an unrecognized command (lines 395-406) *)
Definition fallback (env : Env) : M Response :=
  let* _ := send_sms_via_android env help_message in
  ret (jsonify 200 [lit "status" "success"; lit "action" "sent_help"]).

(** The two [except] clauses (lines 408-412) *)
Definition on_exception (e : exn) : M Response :=
  match e_class e with
  | JSONDecodeError => ret (jsonify 400 [lit "error" "Invalid JSON payload"])
  | _ =>
      let* _ := log Error (text "Error processing webhook: " ++ e_text e) in
      ret (jsonify 500 [member "error" (JStr (e_text e))])
  end.

(** The tests on the message text, in the order of the source
    (lines 344-406) *)
Definition dispatch (env : Env) (body : str) : M Response :=
  let body_lower := py_lower body in
  if contains (text "link") body_lower then branch_link env
  else if contains (text "summary") body_lower then branch_summary env
  else
    match re_search urgency_pattern body with
    | Some urgency_match => branch_data_entry env body urgency_match
    | None => fallback env
    end.

Definition android_webhook (env : Env) (req : json_request) : M Response :=
  try_except
    (let* data := get_json req in
     if negb (truthy data) then
       ret (jsonify 400 [lit "error" "No JSON payload received"])
     else
       let* sender := py_get data "sender" (VStr (text "unknown")) in
       let* raw := py_get data "body" (VStr []) in
       let* body := strip_value raw in
       if bool_decide (body = []) then
         ret (jsonify 400 [lit "error" "Empty message body"])
       else
         let* _ := log Info (text "Received SMS from " ++ py_format sender
                             ++ text ": " ++ body) in
         dispatch env body)
    on_exception.

(** The application: one request to one of its routes. *)
Inductive http_request :=
| GetIndex
| GetTrigger (secret : option str)
| PostWebhook (req : json_request).

Definition serve (env : Env) (r : http_request) : M Response :=
  match r with
  | GetIndex => index
  | GetTrigger secret => trigger_daily_checkin env secret
  | PostWebhook req => android_webhook env req
  end.

End Handlers.
(** ** Vocabulary of the properties *)

(** What the call of [m] on [w] adds to the trace. *)
Definition issued {A} (m : M A) (w : World) : list event :=
  drop (length (trace w)) (trace (snd (m w))).

(** [w] with rows, calls and log lines added at the end. *)
Definition add (rows : list (list str)) (calls : list event)
    (lines : list (level * str)) (w : World) : World :=
  {| sheet := sheet w ++ rows; trace := trace w ++ calls;
     logs := logs w ++ lines |}.



Definition is_append (e : event) : bool :=
  match e with StoreAppend _ _ _ _ => true | _ => false end.

Definition delivered (r : send_result) : bool :=
  match r with Delivered _ => true | _ => false end.

(** The exception [get_google_sheet] ends with, if any. *)
Definition sheet_error (env : Env) : option exn :=
  if negb (is_set (GOOGLE_CREDENTIALS env)) then
    Some {| e_class := ValueError;
            e_text := text "GOOGLE_CREDENTIALS environment variable not set" |}
  else if negb (is_set (GOOGLE_SHEET_ID env)) then
    Some {| e_class := ValueError;
            e_text := text "GOOGLE_SHEET_ID environment variable not set" |}
  else open_fault env.

(** The spreadsheet takes a row, respectively hands out its rows. *)
Definition appends_work (env : Env) : Prop :=
  sheet_error env = None /\ append_fault env = None.

Definition reads_work (env : Env) : Prop :=
  sheet_error env = None /\ read_fault env = None.


(** The value under ["body"], the empty text when there is none. *)
Definition body_field (d : gmap (list N) pyval) : pyval :=
  default (VStr []) (d !! text "body").

(** In the spec's words: the rows behind the header row, of these the
    last three, or all of them when they are fewer. *)
Definition spec_last_rows (rows : list (list str)) : list (list str) :=
  let data := drop 1 rows in
  drop (length data - 3) data.

Definition row_of (e : entry) : list str :=
  [date e; time e; body e; urgency e].

(** The answers of the webhook. *)
Definition link_response : Response :=
  jsonify 200 [lit "status" "success"; lit "action" "sent_link"].

Definition summary_response (count : nat) : Response :=
  jsonify 200 [lit "status" "success"; lit "action" "sent_summary";
               member "entries_count" (JInt (Z.of_nat count))].

Definition logged_response (u : Z) : Response :=
  jsonify 200 [lit "status" "success"; lit "action" "logged_symptom";
               member "urgency" (JInt u)].

Definition help_response : Response :=
  jsonify 200 [lit "status" "success"; lit "action" "sent_help"].

Definition error_response (e : exn) : Response :=
  match e_class e with
  | JSONDecodeError => jsonify 400 [lit "error" "Invalid JSON payload"]
  | _ => jsonify 500 [member "error" (JStr (e_text e))]
  end.

Definition error_lines (e : exn) : list (level * str) :=
  match e_class e with
  | JSONDecodeError => []
  | _ => [(Error, text "Error processing webhook: " ++ e_text e)]
  end.



Record effect := {
  answer : Response;
  new_rows : list (list str);
  calls : list event;
  lines : list (level * str)
}.

(** An exception caught by the webhook's [except] clauses. *)
Definition failed (e : exn) (store_calls : list event) : effect :=
  {| answer := error_response e; new_rows := []; calls := store_calls;
     lines := error_lines e |}.

(** A request turned away with 400. *)
Definition rejected (why : string) : effect :=
  {| answer := jsonify 400 [lit "error" why]; new_rows := []; calls := [];
     lines := [] |}.
Arguments rejected why%_string.

Section Vocabulary.
Context {U : Unicode}.

(** What the notifier answers to a message, and the line it logs. *)
Definition send_outcome (env : Env) (message_text : str) : send_result :=
  match ANDROID_SEND_URL env with
  | Some (c :: rest) =>
      match http_get env (push_url (c :: rest) message_text) with
      | None => Delivered (push_url (c :: rest) message_text)
      | Some err => Failed (push_url (c :: rest) message_text) err
      end
  | _ => NotConfigured
  end.

Definition send_line (env : Env) (message_text : str) : level * str :=
  match send_outcome env message_text with
  | Delivered _ =>
      (Info, text "SMS sent successfully: " ++ take 50 message_text ++ text "...")
  | Failed _ err => (Error, text "Failed to send SMS via Android: " ++ err)
  | NotConfigured => (Error, text "ANDROID_SEND_URL not configured")
  end.

(** Only whitespace, or nothing at all. *)
Definition blank (s : str) : Prop := Forall (fun c => py_isspace c = true) s.



(** The decimal numeral of [n], between 1 and 10, stands in [s] at index
    [i] with no word character right before it and none right after. *)
Definition standalone_at (s : str) (i : nat) (n : Z) : Prop :=
  (1 <= n <= 10)%Z /\
  exists pre post, s = pre ++ decimal n ++ post /\ length pre = i /\
    word_opt (last pre) = false /\ word_opt (head post) = false.

(** ... and no such numeral stands further to the left. *)
Definition first_standalone (s : str) (i : nat) (n : Z) : Prop :=
  standalone_at s i n /\ forall j m, (j < i)%nat -> ~ standalone_at s j m.

(** The code point before a position that lies behind [pre]. *)
Definition before_of (b : option cp) (pre : str) : option cp :=
  match last pre with Some c => Some c | None => b end.

(** The line the webhook logs on receipt. *)
Definition received_line (d : gmap (list N) pyval) (t : str) : level * str :=
  (Info, text "Received SMS from "
         ++ py_format (default (VStr (text "unknown")) (d !! text "sender"))
         ++ text ": " ++ t).

(** *** What a run comes to

    The answer of a handler, the rows it adds to the sheet, the calls it
    issues and the lines it logs, computed without the monad.
    [android_webhook_effect] below shows that the webhook does exactly
    what [webhook_effect] says. *)

Definition replied (env : Env) (r : Response) (rows : list (list str))
    (store_calls : list event) (msg : str) : effect :=
  {| answer := r; new_rows := rows;
     calls := store_calls ++ [Send msg (send_outcome env msg)];
     lines := [send_line env msg] |}.

Definition dispatch_effect (env : Env) (t : str) (rows0 : list (list str))
  : effect :=
  if contains (text "link") (py_lower t) then
    replied env link_response [] [] (link_message env)
  else if contains (text "summary") (py_lower t) then
    match sheet_error env with
    | Some e => failed e []
    | None =>
        match read_fault env with
        | Some e => failed e [StoreRead]
        | None =>
            let entries := entries_of (spec_last_rows rows0) in
            replied env (summary_response (length entries)) [] [StoreRead]
              match entries with
              | [] => no_entries_message
              | _ => join newline (summary_title :: map summary_line entries)
              end
        end
    end
  else
    match re_search urgency_pattern t with
    | Some m =>
        match py_int (m_group1 m) with
        | Some u =>
            match sheet_error env with
            | Some e => failed e []
            | None =>
                match append_fault env with
                | Some e =>
                    failed e [StoreAppend (now_date env) (now_time env) t u]
                | None =>
                    replied env (logged_response u)
                      [[now_date env; now_time env; t; decimal u]]
                      [StoreAppend (now_date env) (now_time env) t u]
                      logged_message
                end
            end
        | None =>
            failed {| e_class := ValueError;
                      e_text := text "invalid literal for int() with base 10" |}
                   []
        end
    | None => replied env help_response [] [] help_message
    end.

Definition webhook_effect (env : Env) (req : json_request)
    (rows0 : list (list str)) : effect :=
  match req with
  | Unparsed e => failed e []
  | Parsed (POther ty b) =>
      if b then failed (no_attribute ty "get") []
      else rejected "No JSON payload received"
  | Parsed (PDict d) =>
      if bool_decide (d = ∅) then rejected "No JSON payload received"
      else
        match body_field d with
        | VOther ty _ => failed (no_attribute ty "strip") []
        | VStr raw =>
            if bool_decide (py_strip raw = []) then rejected "Empty message body"
            else
              let e := dispatch_effect env (py_strip raw) rows0 in
              {| answer := answer e; new_rows := new_rows e; calls := calls e;
                 lines := received_line d (py_strip raw) :: lines e |}
        end
  end.

End Vocabulary.

(** ** Sample data *)

Definition env_ok : Env :=
  {| GOOGLE_CREDENTIALS := Some (text "{}");
     ANDROID_SEND_URL := Some (text "https://joinjoaomgcd.appspot.com/push?key=k");
     CRON_SECRET := Some (text "s3cret");
     GOOGLE_SHEET_ID := Some (text "sheet-1");
     now_date := text "2024-03-05";
     now_time := text "08:30:00";
     open_fault := None;
     append_fault := None;
     read_fault := None;
     http_get := fun _ => None |}.

(** The same process started without [GOOGLE_CREDENTIALS]. *)
Definition env_no_credentials : Env :=
  {| GOOGLE_CREDENTIALS := None;
     ANDROID_SEND_URL := ANDROID_SEND_URL env_ok;
     CRON_SECRET := CRON_SECRET env_ok;
     GOOGLE_SHEET_ID := GOOGLE_SHEET_ID env_ok;
     now_date := now_date env_ok;
     now_time := now_time env_ok;
     open_fault := None;
     append_fault := None;
     read_fault := None;
     http_get := fun _ => None |}.


Definition empty_world : World := {| sheet := []; trace := []; logs := [] |}.

(** The payload [{"body": s}]. *)
Definition body_only (s : string) : gmap (list N) pyval :=
  {[ text "body" := VStr (text s) ]}.
Arguments body_only s%_string.


Definition sample_entry (day : string) (u : string) : entry :=
  {| date := text day; time := text "09:00:00";
     body := text "a long description of the symptoms of that day";
     urgency := text u |}.
Arguments sample_entry (day u)%_string.

(** Credentials that are set but are no JSON: what [json.loads] raises. *)
Definition env_bad_credentials : Env :=
  {| GOOGLE_CREDENTIALS := Some (text "not json");
     ANDROID_SEND_URL := ANDROID_SEND_URL env_ok;
     CRON_SECRET := CRON_SECRET env_ok;
     GOOGLE_SHEET_ID := GOOGLE_SHEET_ID env_ok;
     now_date := now_date env_ok;
     now_time := now_time env_ok;
     open_fault :=
       Some {| e_class := JSONDecodeError;
               e_text := text "Expecting value: line 1 column 1 (char 0)" |};
     append_fault := None;
     read_fault := None;
     http_get := fun _ => None |}.

(** A header and five entries. *)
Definition six_row_world : World :=
  {| sheet := [text "Date"; text "Time"; text "Symptom"; text "Urgency"]
              :: map row_of [sample_entry "2024-03-01" "3";
                             sample_entry "2024-03-02" "4";
                             sample_entry "2024-03-03" "5";
                             sample_entry "2024-03-04" "6";
                             sample_entry "2024-03-05" "7"];
     trace := []; logs := [] |}.

(** * Properties *)

(** ** Text *)

Section TextFacts.
Context {U : Unicode}.

Lemma in_range_spec lo hi c : in_range lo hi c = true <-> lo <= c <= hi.
Proof.
  unfold in_range. rewrite andb_true_iff, !N.leb_le. tauto.
Qed.


Lemma lstrip_blank s : blank s -> lstrip s = [].
Proof.
  induction 1 as [|c s Hc _ IH]; [reflexivity|]. cbn. rewrite Hc. exact IH.
Qed.

Lemma strip_blank s : blank s -> py_strip s = [].
Proof.
  intros H. unfold py_strip, rstrip. rewrite (lstrip_blank s H). reflexivity.
Qed.











End TextFacts.

(** ** The urgency rating *)

Section RegexFacts.
Context {U : Unicode}.

Lemma digit_is_word d : in_range 48 57 d = true -> is_word d = true.
Proof.
  intros H. unfold is_word. rewrite H.
  apply in_range_spec in H.
  replace (d <? 128) with true by (symmetry; apply N.ltb_lt; lia).
  reflexivity.
Qed.

Lemma rating_cases (n : Z) :
  (1 <= n <= 10)%Z ->
  n = 1%Z \/ n = 2%Z \/ n = 3%Z \/ n = 4%Z \/ n = 5%Z \/ n = 6%Z \/ n = 7%Z
  \/ n = 8%Z \/ n = 9%Z \/ n = 10%Z.
Proof. lia. Qed.

Lemma digit_cases (a : N) :
  in_range 49 57 a = true ->
  a = 49 \/ a = 50 \/ a = 51 \/ a = 52 \/ a = 53 \/ a = 54 \/ a = 55
  \/ a = 56 \/ a = 57.
Proof. rewrite in_range_spec. lia. Qed.

Lemma decimal_digit (a : N) :
  in_range 49 57 a = true -> decimal (Z.of_N a - 48) = [a].
Proof.
  intros H. apply digit_cases in H.
  repeat (destruct H as [-> | H]; [reflexivity |]). subst. reflexivity.
Qed.

Lemma xorb_true_word (b : bool) : xorb b true = true -> b = false.
Proof. destruct b; [discriminate | reflexivity]. Qed.

Lemma match_here_sound before s g :
  match_here urgency_pattern before s = Some g ->
  exists n post, (1 <= n <= 10)%Z /\ s = decimal n ++ post /\ g = decimal n /\
    word_opt before = false /\ word_opt (head post) = false.
Proof.
  unfold match_here, urgency_pattern. intros H.
  cbn [exec] in H. unfold at_boundary, advance in H.
  destruct s as [|a r]; cbn in H.
  - destruct (xorb _ _); discriminate.
  - destruct (xorb (word_opt before) (is_word a)) eqn:Hb; [|discriminate].
    destruct (a =? 49) eqn:Ha.
    + apply N.eqb_eq in Ha. subst a.
      assert (Hbefore : word_opt before = false).
      { apply xorb_true_word. exact Hb. }
      destruct r as [|b r']; cbn in H.
      * injection H as <-. exists 1%Z, []. repeat split; try lia; auto.
      * destruct (b =? 48) eqn:Hb48.
        -- apply N.eqb_eq in Hb48. subst b.
           replace (is_word 48) with true in H by reflexivity.
           replace (is_word 49) with true in H by reflexivity.
           cbn in H.
           destruct (word_opt (head r')) eqn:Hr; cbn in H; [discriminate|].
           injection H as <-. exists 10%Z, r'. repeat split; try lia; auto.
        -- replace (is_word 49) with true in H by reflexivity.
           cbn in H. destruct (is_word b) eqn:Hwb; cbn in H; [discriminate|].
           injection H as <-. exists 1%Z, (b :: r'). repeat split; try lia; auto.
    + cbn in H. destruct (in_range 49 57 a) eqn:Hr; [|discriminate].
      assert (Hw : is_word a = true).
      { apply digit_is_word. apply in_range_spec in Hr. apply in_range_spec. lia. }
      rewrite Hw in Hb, H.
      apply xorb_true_word in Hb.
      destruct (word_opt (head r)) eqn:Hh; cbn in H; [discriminate|].
      injection H as <-.
      exists (Z.of_N a - 48)%Z, r. rewrite decimal_digit by exact Hr.
      apply in_range_spec in Hr.
      repeat split; try lia; auto.
Qed.

Lemma match_here_complete before n post :
  (1 <= n <= 10)%Z -> word_opt before = false -> word_opt (head post) = false ->
  match_here urgency_pattern before (decimal n ++ post) = Some (decimal n).
Proof.
  intros Hn Hb Hp. unfold match_here, urgency_pattern.
  cbn [exec]. unfold at_boundary, advance.
  apply rating_cases in Hn.
  destruct post as [|b r]; cbn in Hp.
  - repeat (destruct Hn as [-> | Hn]; [cbn; rewrite Hb; reflexivity |]).
    subst. cbn. rewrite Hb. reflexivity.
  - assert (Hne : (b =? 48) = false).
    { apply N.eqb_neq. intros ->. rewrite (digit_is_word 48) in Hp by reflexivity.
      discriminate. }
    repeat (destruct Hn as [-> | Hn];
            [cbn; rewrite Hb; cbn; rewrite ?Hne, Hp; reflexivity |]).
    subst. cbn. rewrite Hb. cbn. rewrite Hp. reflexivity.
Qed.


Lemma before_of_cons b c p : before_of b (c :: p) = before_of (Some c) p.
Proof.
  unfold before_of. destruct p as [|d p]; [reflexivity|].
  change (last (c :: d :: p)) with (last (d :: p)).
  destruct (last (d :: p)) eqn:E; [reflexivity|].
  apply last_None in E. discriminate.
Qed.

Lemma search_from_spec r s : forall before pos,
  match search_from r before s pos with
  | Some m =>
      exists pre rest, s = pre ++ rest /\ m_start m = (pos + length pre)%nat /\
        match_here r (before_of before pre) rest = Some (m_group1 m) /\
        forall p1 r1, s = p1 ++ r1 -> (length p1 < length pre)%nat ->
          match_here r (before_of before p1) r1 = None
  | None =>
      forall p1 r1, s = p1 ++ r1 -> match_here r (before_of before p1) r1 = None
  end.
Proof.
  induction s as [|c s IH]; intros before pos; cbn [search_from].
  - destruct (match_here r before []) eqn:E.
    + exists [], []. cbn. repeat split; auto; try lia;
        intros p1 r1 _ Hlt; cbn in Hlt; lia.
    + intros p1 r1 Heq. symmetry in Heq. apply app_eq_nil in Heq as [-> ->].
      exact E.
  - destruct (match_here r before (c :: s)) eqn:E.
    + exists [], (c :: s). cbn. repeat split; auto; try lia;
        intros p1 r1 _ Hlt; cbn in Hlt; lia.
    + specialize (IH (Some c) (S pos)).
      destruct (search_from r (Some c) s (S pos)) as [m|].
      * destruct IH as (pre & rest & -> & Hst & Hm & Hmin).
        exists (c :: pre), rest. rewrite before_of_cons. cbn [length].
        repeat split; auto; try lia.
        intros p1 r1 Heq Hlt. destruct p1 as [|d p1].
        -- cbn in Heq. subst r1. exact E.
        -- cbn in Heq. injection Heq as <- Heq. rewrite before_of_cons.
           apply Hmin; [exact Heq | cbn in Hlt; lia].
      * intros p1 r1 Heq. destruct p1 as [|d p1].
        -- cbn in Heq. subst r1. exact E.
        -- cbn in Heq. injection Heq as <- Heq. rewrite before_of_cons.
           apply IH. exact Heq.
Qed.

Lemma before_of_None pre : before_of None pre = last pre.
Proof. unfold before_of. destruct (last pre); reflexivity. Qed.

Lemma standalone_match s i n :
  standalone_at s i n <->
  (1 <= n <= 10)%Z /\ exists pre rest, s = pre ++ rest /\ length pre = i /\
    match_here urgency_pattern (last pre) rest = Some (decimal n).
Proof.
  split.
  - intros (Hn & pre & post & -> & Hl & Hb & Hp). split; [exact Hn|].
    exists pre, (decimal n ++ post). repeat split; auto.
    apply match_here_complete; assumption.
  - intros (Hn & pre & rest & -> & Hl & Hm). split; [exact Hn|].
    apply match_here_sound in Hm as (n' & post & Hn' & -> & Hg & Hb & Hp).
    exists pre, post. rewrite Hg. repeat split; auto.
Qed.

Lemma decimal_rating_inj n m :
  (1 <= n <= 10)%Z -> (1 <= m <= 10)%Z -> decimal n = decimal m -> n = m.
Proof.
  intros Hn Hm. apply rating_cases in Hn, Hm.
  repeat (destruct Hn as [-> | Hn]);
    repeat (destruct Hm as [-> | Hm]); subst; try reflexivity;
    vm_compute; intros; discriminate.
Qed.

Lemma re_search_some s m :
  re_search urgency_pattern s = Some m ->
  exists n, first_standalone s (m_start m) n /\ m_group1 m = decimal n.
Proof.
  unfold re_search. intros H.
  pose proof (search_from_spec urgency_pattern s None 0%nat) as S.
  rewrite H in S. destruct S as (pre & rest & -> & Hst & Hm & Hmin).
  rewrite before_of_None in Hm.
  destruct (match_here_sound _ _ _ Hm) as (n & post & Hn & -> & Hg & Hb & Hp).
  exists n. split; [|exact Hg]. split.
  - split; [exact Hn|]. exists pre, post. cbn in Hst. repeat split; auto.
  - intros j k Hlt Hs. apply standalone_match in Hs as (Hk & p1 & r1 & Heq & Hl & Hm1).
    rewrite <- before_of_None in Hm1.
    rewrite Hmin in Hm1; [discriminate | exact Heq | cbn in Hst; lia].
Qed.

Lemma re_search_none s :
  re_search urgency_pattern s = None -> forall i n, ~ standalone_at s i n.
Proof.
  unfold re_search. intros H i n Hs.
  pose proof (search_from_spec urgency_pattern s None 0%nat) as S.
  rewrite H in S.
  apply standalone_match in Hs as (Hk & p1 & r1 & Heq & Hl & Hm1).
  rewrite <- before_of_None in Hm1. rewrite (S _ _ Heq) in Hm1. discriminate.
Qed.

Lemma first_standalone_unique s i n j m :
  first_standalone s i n -> first_standalone s j m -> i = j /\ n = m.
Proof.
  intros [Hi Hmin] [Hj Hmin'].
  assert (i = j) as <-.
  { destruct (lt_eq_lt_dec i j) as [[Hlt | ->] | Hlt]; auto.
    - exfalso. exact (Hmin' _ _ Hlt Hi).
    - exfalso. exact (Hmin _ _ Hlt Hj). }
  split; [reflexivity|].
  apply standalone_match in Hi as (Hn & pre & rest & Hs & Hl & Hm1).
  apply standalone_match in Hj as (Hm & pre' & rest' & Hs' & Hl' & Hm2).
  rewrite Hs in Hs'.
  assert (pre = pre') as <-.
  { apply (f_equal (take (length pre))) in Hs'.
    rewrite take_app_length in Hs'. rewrite Hl, <- Hl' in Hs'.
    rewrite take_app_length in Hs'. exact Hs'. }
  apply app_inv_head in Hs'. subst rest'.
  rewrite Hm1 in Hm2. injection Hm2 as Hd.
  apply decimal_rating_inj; assumption.
Qed.

Lemma re_search_first s i n :
  first_standalone s i n ->
  re_search urgency_pattern s = Some {| m_start := i; m_group1 := decimal n |}.
Proof.
  intros Hf. destruct (re_search urgency_pattern s) as [m|] eqn:E.
  - apply re_search_some in E as (k & Hk & Hg).
    destruct (first_standalone_unique _ _ _ _ _ Hf Hk) as [-> ->].
    destruct m; cbn in *. subst. reflexivity.
  - exfalso. destruct Hf as [Hs _]. exact (re_search_none _ E _ _ Hs).
Qed.

Lemma py_int_decimal n : (1 <= n <= 10)%Z -> py_int (decimal n) = Some n.
Proof.
  intros Hn. apply rating_cases in Hn.
  repeat (destruct Hn as [-> | Hn]; [reflexivity|]). subst. reflexivity.
Qed.

End RegexFacts.
Arguments text : simpl never.
Arguments py_strip : simpl never.
Arguments py_lower : simpl never.
Arguments contains : simpl never.
Arguments re_search : simpl never.
Arguments py_int : simpl never.
Arguments quote : simpl never.
Arguments decimal : simpl never.
Arguments push_url : simpl never.
Arguments join : simpl never.
Arguments entries_of : simpl never.

(** ** Runs of the collaborators and of the branches *)

Lemma add_nothing w : add [] [] [] w = w.
Proof. destruct w. unfold add. cbn. rewrite !app_nil_r. reflexivity. Qed.

Lemma add_add r1 c1 l1 r2 c2 l2 w :
  add r2 c2 l2 (add r1 c1 l1 w) = add (r1 ++ r2) (c1 ++ c2) (l1 ++ l2) w.
Proof. unfold add. cbn. rewrite !app_assoc. reflexivity. Qed.

Lemma sheet_untouched calls lines w : sheet (add [] calls lines w) = sheet w.
Proof. cbn. apply app_nil_r. Qed.

Lemma issued_add {A} (m : M A) w (r : outcome A) rows calls lines :
  m w = (r, add rows calls lines w) -> issued m w = calls.
Proof.
  intros E. unfold issued. rewrite E. cbn. apply drop_app_length.
Qed.

Lemma emit_run e w : emit e w = (Returned tt, add [] [e] [] w).
Proof. unfold emit, add. rewrite !app_nil_r. reflexivity. Qed.

Lemma log_run l msg w : log l msg w = (Returned tt, add [] [] [(l, msg)] w).
Proof. unfold log, add. rewrite !app_nil_r. reflexivity. Qed.

Lemma get_google_sheet_run env w :
  get_google_sheet env w
  = (match sheet_error env with Some e => Raised e | None => Returned tt end, w).
Proof.
  unfold get_google_sheet, sheet_error.
  destruct (is_set (GOOGLE_CREDENTIALS env)); [|reflexivity].
  destruct (is_set (GOOGLE_SHEET_ID env)); [|reflexivity].
  cbn. destruct (open_fault env); reflexivity.
Qed.

Lemma append_symptom_log_run env b u w :
  append_symptom_log env b u w
  = match sheet_error env with
    | Some e => (Raised e, w)
    | None =>
        match append_fault env with
        | Some e =>
            (Raised e, add [] [StoreAppend (now_date env) (now_time env) b u] [] w)
        | None =>
            (Returned true,
             add [[now_date env; now_time env; b; decimal u]]
                 [StoreAppend (now_date env) (now_time env) b u] [] w)
        end
    end.
Proof.
  unfold append_symptom_log, bind. rewrite get_google_sheet_run.
  destruct (sheet_error env); [reflexivity|].
  unfold append_row, bind. rewrite emit_run.
  destruct (append_fault env); [reflexivity|].
  unfold ret, add. cbn. rewrite !app_nil_r. reflexivity.
Qed.

Lemma slice_last_three {A} (l : list A) :
  (3 <= length l)%nat -> slice_from (-3) l = drop (length l - 3) l.
Proof.
  intros H. unfold slice_from.
  replace (-3 <? 0)%Z with true by reflexivity.
  f_equal. lia.
Qed.

Lemma get_last_entries_run env w :
  get_last_entries env 3 w
  = match sheet_error env with
    | Some e => (Raised e, w)
    | None =>
        match read_fault env with
        | Some e => (Raised e, add [] [StoreRead] [] w)
        | None =>
            (Returned (entries_of (spec_last_rows (sheet w))),
             add [] [StoreRead] [] w)
        end
    end.
Proof.
  unfold get_last_entries, bind. rewrite get_google_sheet_run.
  destruct (sheet_error env); [reflexivity|].
  unfold get_all_values, bind. rewrite emit_run.
  destruct (read_fault env); [reflexivity|].
  change (sheet (add [] [StoreRead] [] w)) with (sheet w ++ []).
  rewrite app_nil_r. unfold spec_last_rows, ret.
  destruct (length (sheet w) <=? 1)%nat eqn:E.
  - apply Nat.leb_le in E.
    rewrite (drop_ge (sheet w) 1) by exact E. reflexivity.
  - apply Nat.leb_gt in E.
    destruct (3 <=? Z.of_nat (length (drop 1 (sheet w))))%Z eqn:E3.
    + apply Z.leb_le in E3.
      rewrite slice_last_three by lia. reflexivity.
    + apply Z.leb_gt in E3.
      replace (length (drop 1 (sheet w)) - 3)%nat with 0%nat by lia.
      reflexivity.
Qed.

Section Runs.
Context {U : Unicode}.

Lemma send_run env msg w :
  send_sms_via_android env msg w
  = (Returned (delivered (send_outcome env msg)),
     add [] [Send msg (send_outcome env msg)] [send_line env msg] w).
Proof.
  unfold send_sms_via_android, send_line, send_outcome.
  destruct (ANDROID_SEND_URL env) as [[|c rest]|];
    try (unfold bind; rewrite log_run, emit_run, add_add; reflexivity).
  destruct (http_get env (push_url (c :: rest) msg));
    unfold bind; rewrite emit_run, log_run, add_add; reflexivity.
Qed.

Lemma branch_link_run env w :
  branch_link env w
  = (Returned link_response,
     add [] [Send (link_message env) (send_outcome env (link_message env))]
         [send_line env (link_message env)] w).
Proof.
  unfold branch_link, bind. fold (link_message env). rewrite send_run.
  reflexivity.
Qed.

(** The text of the summary. *)
Lemma branch_summary_run env w :
  branch_summary env w
  = match sheet_error env with
    | Some e => (Raised e, w)
    | None =>
        match read_fault env with
        | Some e => (Raised e, add [] [StoreRead] [] w)
        | None =>
            let entries := entries_of (spec_last_rows (sheet w)) in
            let msg :=
              match entries with
              | [] => no_entries_message
              | _ => join newline (summary_title :: map summary_line entries)
              end in
            (Returned (summary_response (length entries)),
             add [] [StoreRead; Send msg (send_outcome env msg)]
                 [send_line env msg] w)
        end
    end.
Proof.
  unfold branch_summary, bind. rewrite get_last_entries_run.
  destruct (sheet_error env); [reflexivity|].
  destruct (read_fault env); [reflexivity|].
  cbv zeta.
  destruct (entries_of (spec_last_rows (sheet w))) as [|e es];
    rewrite send_run, add_add; reflexivity.
Qed.

Lemma branch_data_entry_run env t m u w :
  py_int (m_group1 m) = Some u ->
  branch_data_entry env t m w
  = match sheet_error env with
    | Some e => (Raised e, w)
    | None =>
        match append_fault env with
        | Some e =>
            (Raised e, add [] [StoreAppend (now_date env) (now_time env) t u] [] w)
        | None =>
            (Returned (logged_response u),
             add [[now_date env; now_time env; t; decimal u]]
                 [StoreAppend (now_date env) (now_time env) t u;
                  Send logged_message (send_outcome env logged_message)]
                 [send_line env logged_message] w)
        end
    end.
Proof.
  intros Hu. unfold branch_data_entry. rewrite Hu. unfold bind.
  rewrite append_symptom_log_run.
  destruct (sheet_error env); [reflexivity|].
  destruct (append_fault env); [reflexivity|].
  rewrite send_run, add_add. reflexivity.
Qed.

Lemma fallback_run env w :
  fallback env w
  = (Returned help_response,
     add [] [Send help_message (send_outcome env help_message)]
         [send_line env help_message] w).
Proof. unfold fallback, bind. rewrite send_run. reflexivity. Qed.

Lemma on_exception_run e w :
  on_exception e w = (Returned (error_response e), add [] [] (error_lines e) w).
Proof.
  unfold on_exception, error_response, error_lines.
  destruct (e_class e); unfold bind; rewrite ?log_run; unfold ret;
    rewrite ?add_nothing; reflexivity.
Qed.

End Runs.

(** ** Runs of the webhook *)

Section WebhookFacts.
Context {U : Unicode}.

Lemma strip_nil : py_strip [] = [].
Proof. reflexivity. Qed.

Lemma body_field_present d raw :
  body_field d = VStr raw -> raw <> [] -> d <> ∅.
Proof.
  intros H Hne ->. unfold body_field in H. rewrite lookup_empty in H.
  cbn in H. congruence.
Qed.

(** A payload with a text under ["body"] that is not blank gets past the
    two checks, is logged and dispatched. *)
Lemma webhook_dispatch env d raw w :
  body_field d = VStr raw -> py_strip raw <> [] ->
  android_webhook env (Parsed (PDict d)) w
  = try_except (dispatch env (py_strip raw)) on_exception
      (add [] [] [received_line d (py_strip raw)] w).
Proof.
  intros Hb Hne.
  assert (Hd : d <> ∅).
  { apply (body_field_present d raw Hb). intros ->. apply Hne, strip_nil. }
  unfold android_webhook, try_except, bind, get_json, ret, py_get, truthy.
  rewrite (bool_decide_eq_false_2 _ Hd). cbn [negb].
  unfold body_field in Hb. rewrite Hb. unfold strip_value, ret.
  cbv beta iota.
  rewrite (bool_decide_eq_false_2 _ Hne). rewrite log_run. reflexivity.
Qed.

Lemma dispatch_observed env t w :
  try_except (dispatch env t) on_exception w
  = let e := dispatch_effect env t (sheet w) in
    (Returned (answer e), add (new_rows e) (calls e) (lines e) w).
Proof.
  unfold try_except, dispatch, dispatch_effect. cbv zeta.
  destruct (contains (text "link") (py_lower t)).
  { rewrite branch_link_run. reflexivity. }
  destruct (contains (text "summary") (py_lower t)).
  { rewrite branch_summary_run.
    destruct (sheet_error env).
    { rewrite on_exception_run. reflexivity. }
    destruct (read_fault env).
    { rewrite on_exception_run, add_add. reflexivity. }
    reflexivity. }
  destruct (re_search urgency_pattern t) as [m|].
  2:{ rewrite fallback_run. reflexivity. }
  destruct (py_int (m_group1 m)) as [u|] eqn:Hu.
  2:{ unfold branch_data_entry. rewrite Hu. unfold raise.
      rewrite on_exception_run. reflexivity. }
  rewrite (branch_data_entry_run env t m u w Hu).
  destruct (sheet_error env).
  { rewrite on_exception_run. reflexivity. }
  destruct (append_fault env).
  { rewrite on_exception_run, add_add. reflexivity. }
  reflexivity.
Qed.

(** The webhook does what [webhook_effect] says. *)
Lemma android_webhook_effect env req w :
  android_webhook env req w
  = let e := webhook_effect env req (sheet w) in
    (Returned (answer e), add (new_rows e) (calls e) (lines e) w).
Proof.
  unfold webhook_effect. cbv zeta.
  destruct req as [[d | ty b] | e].
  - destruct (bool_decide (d = ∅)) eqn:Hd.
    { unfold android_webhook, try_except, bind, get_json, ret, truthy.
      rewrite Hd. cbn [negb]. unfold rejected. cbn [answer new_rows calls lines].
      rewrite add_nothing. reflexivity. }
    destruct (body_field d) as [raw | ty shown] eqn:Hb.
    + destruct (bool_decide (py_strip raw = [])) eqn:Hs.
      * unfold android_webhook, try_except, bind, get_json, ret, truthy, py_get.
        rewrite Hd. cbn [negb]. unfold body_field in Hb. rewrite Hb.
        unfold strip_value, ret. cbv beta iota. rewrite Hs.
        unfold rejected. cbn [answer new_rows calls lines].
        rewrite add_nothing. reflexivity.
      * apply bool_decide_eq_false in Hs.
        rewrite (webhook_dispatch env d raw w Hb Hs), dispatch_observed.
        cbv zeta. cbn [answer new_rows calls lines].
        rewrite sheet_untouched, add_add. reflexivity.
    + unfold android_webhook, try_except, bind, get_json, ret, truthy, py_get.
      rewrite Hd. cbn [negb]. unfold body_field in Hb. rewrite Hb.
      unfold strip_value, raise, ret. cbv beta iota. rewrite on_exception_run.
      reflexivity.
  - unfold android_webhook, try_except, bind, get_json, ret, truthy.
    destruct b; cbn [negb].
    + unfold py_get, raise. cbv beta iota. rewrite on_exception_run. reflexivity.
    + unfold rejected. cbn [answer new_rows calls lines].
      rewrite add_nothing. reflexivity.
  - unfold android_webhook, try_except, bind, get_json, raise.
    rewrite on_exception_run. reflexivity.
Qed.

Lemma error_status e : status_code (error_response e) <> 200%Z.
Proof. unfold error_response. destruct (e_class e); discriminate. Qed.

Lemma rating_parses t m :
  re_search urgency_pattern t = Some m ->
  exists n, first_standalone t (m_start m) n /\ py_int (m_group1 m) = Some n.
Proof.
  intros E. apply re_search_some in E as (n & Hf & Hg).
  exists n. split; [exact Hf|]. rewrite Hg.
  apply py_int_decimal. apply Hf.
Qed.

(** The six ways a dispatch can go. *)
Lemma dispatch_effect_cases env t rows0 :
  (exists r msg, dispatch_effect env t rows0 = replied env r [] [] msg
                 /\ (r = link_response \/ r = help_response))
  \/ (exists k msg, dispatch_effect env t rows0
                    = replied env (summary_response k) [] [StoreRead] msg
                    /\ reads_work env)
  \/ (exists i n, first_standalone t i n /\ appends_work env
        /\ dispatch_effect env t rows0
           = replied env (logged_response n)
               [[now_date env; now_time env; t; decimal n]]
               [StoreAppend (now_date env) (now_time env) t n] logged_message)
  \/ (exists ex, dispatch_effect env t rows0 = failed ex []
                 /\ sheet_error env = Some ex)
  \/ (exists ex, dispatch_effect env t rows0 = failed ex [StoreRead]
                 /\ read_fault env = Some ex)
  \/ (exists ex i n, first_standalone t i n
        /\ dispatch_effect env t rows0
           = failed ex [StoreAppend (now_date env) (now_time env) t n]
        /\ append_fault env = Some ex).
Proof.
  unfold dispatch_effect.
  destruct (contains (text "link") (py_lower t)).
  { left. eexists _, _. split; [reflexivity | left; reflexivity]. }
  destruct (contains (text "summary") (py_lower t)).
  { destruct (sheet_error env) as [ex|] eqn:Hopen.
    { do 3 right. left. exists ex. split; reflexivity. }
    destruct (read_fault env) as [ex|] eqn:Hread.
    { do 4 right. left. exists ex. split; reflexivity. }
    right. left. eexists _, _. split; [reflexivity|]. split; assumption. }
  destruct (re_search urgency_pattern t) as [m|] eqn:Hre.
  2:{ left. eexists _, _. split; [reflexivity | right; reflexivity]. }
  destruct (rating_parses t m Hre) as (n & Hf & ->).
  destruct (sheet_error env) as [ex|] eqn:Hopen.
  { do 3 right. left. exists ex. split; reflexivity. }
  destruct (append_fault env) as [ex|] eqn:Happ.
  { do 5 right. exists ex, (m_start m), n. repeat split; auto; apply Hf. }
  do 2 right. left. exists (m_start m), n.
  split; [exact Hf|]. split; [split; assumption | reflexivity].
Qed.

(** A request is turned away before the dispatch, or it carries a text
    that is dispatched. *)
Lemma webhook_effect_cases env req rows0 :
  (new_rows (webhook_effect env req rows0) = []
   /\ calls (webhook_effect env req rows0) = []
   /\ status_code (answer (webhook_effect env req rows0)) <> 200%Z
   /\ forall d raw, req = Parsed (PDict d) -> body_field d = VStr raw ->
                    py_strip raw = [])
  \/ (exists d raw, req = Parsed (PDict d) /\ body_field d = VStr raw
        /\ py_strip raw <> []
        /\ answer (webhook_effect env req rows0)
           = answer (dispatch_effect env (py_strip raw) rows0)
        /\ new_rows (webhook_effect env req rows0)
           = new_rows (dispatch_effect env (py_strip raw) rows0)
        /\ calls (webhook_effect env req rows0)
           = calls (dispatch_effect env (py_strip raw) rows0)).
Proof.
  unfold webhook_effect.
  destruct req as [[d | ty b] | e].
  - destruct (bool_decide (d = ∅)) eqn:Hd.
    { left. repeat split; try discriminate.
      intros d' raw [= <-] Hb. apply bool_decide_eq_true in Hd. subst d.
      unfold body_field in Hb. rewrite lookup_empty in Hb.
      injection Hb as <-. reflexivity. }
    destruct (body_field d) as [raw | ty shown] eqn:Hb.
    + destruct (bool_decide (py_strip raw = [])) eqn:Hs.
      * left. repeat split; try discriminate.
        intros d' raw' [= <-] Hb'. rewrite Hb in Hb'. injection Hb' as <-.
        apply bool_decide_eq_true in Hs. exact Hs.
      * right. exists d, raw. apply bool_decide_eq_false in Hs.
        repeat split; auto.
    + left. repeat split; try apply error_status.
      intros d' raw' [= <-] Hb'. rewrite Hb in Hb'. discriminate.
  - left. destruct b; repeat split; try apply error_status; try discriminate.
  - left. repeat split; try apply error_status; try discriminate.
Qed.

Lemma webhook_observed env req w :
  fst (android_webhook env req w)
  = Returned (answer (webhook_effect env req (sheet w)))
  /\ sheet (snd (android_webhook env req w))
     = sheet w ++ new_rows (webhook_effect env req (sheet w))
  /\ issued (android_webhook env req) w
     = calls (webhook_effect env req (sheet w)).
Proof.
  pose proof (android_webhook_effect env req w) as E. cbv zeta in E.
  split; [rewrite E; reflexivity|].
  split; [rewrite E; reflexivity|].
  exact (issued_add _ _ _ _ _ _ E).
Qed.

End WebhookFacts.

(** * Properties of the handlers *)

Ltac conj_split := repeat match goal with |- _ /\ _ => split end.

Section HandlerProperties.
Context {U : Unicode}.


Lemma first_standalone_by_search s i n :
  (1 <= n <= 10)%Z ->
  re_search urgency_pattern s = Some {| m_start := i; m_group1 := decimal n |} ->
  first_standalone s i n.
Proof.
  intros Hn E. apply re_search_some in E as (k & Hk & Hg). cbn in Hk, Hg.
  destruct Hk as [Hs Hmin].
  assert (n = k) as <-.
  { apply decimal_rating_inj; [exact Hn | apply Hs | exact Hg]. }
  split; assumption.
Qed.

Lemma dispatch_data_entry env t i n w :
  contains (text "link") (py_lower t) = false ->
  contains (text "summary") (py_lower t) = false ->
  first_standalone t i n ->
  dispatch env t w
  = branch_data_entry env t {| m_start := i; m_group1 := decimal n |} w.
Proof.
  intros Hl Hs Hf. unfold dispatch. cbv zeta. rewrite Hl, Hs.
  rewrite (re_search_first t i n Hf). reflexivity.
Qed.

Lemma dispatch_fallback env t w :
  contains (text "link") (py_lower t) = false ->
  contains (text "summary") (py_lower t) = false ->
  (forall i n, ~ standalone_at t i n) ->
  dispatch env t w = fallback env w.
Proof.
  intros Hl Hs Hno. unfold dispatch. cbv zeta. rewrite Hl, Hs.
  destruct (re_search urgency_pattern t) as [m|] eqn:E; [|reflexivity].
  apply re_search_some in E as (k & [Hk _] & _). destruct (Hno _ _ Hk).
Qed.

Lemma first_standalone_nonempty t i n : first_standalone t i n -> t <> [].
Proof.
  intros [(Hn & pre & post & -> & _) _] E.
  apply app_eq_nil in E as [_ E]. apply app_eq_nil in E as [E _].
  apply rating_cases in Hn.
  repeat (destruct Hn as [-> | Hn]; [discriminate E|]). subst. discriminate E.
Qed.

Lemma webhook_logs_rating env d raw w i n :
  body_field d = VStr raw ->
  contains (text "link") (py_lower (py_strip raw)) = false ->
  contains (text "summary") (py_lower (py_strip raw)) = false ->
  first_standalone (py_strip raw) i n ->
  appends_work env ->
  android_webhook env (Parsed (PDict d)) w
  = (Returned (logged_response n),
     add [[now_date env; now_time env; py_strip raw; decimal n]]
         [StoreAppend (now_date env) (now_time env) (py_strip raw) n;
          Send logged_message (send_outcome env logged_message)]
         [received_line d (py_strip raw); send_line env logged_message] w).
Proof.
  intros Hb Hl Hs Hf [Hopen Happ].
  pose proof (proj1 Hf) as (Hn & _).
  rewrite (webhook_dispatch env d raw w Hb (first_standalone_nonempty _ _ _ Hf)).
  unfold try_except. rewrite (dispatch_data_entry env _ i n _ Hl Hs Hf).
  rewrite (branch_data_entry_run env _ _ n); [|apply py_int_decimal; exact Hn].
  rewrite Hopen, Happ, add_add. reflexivity.
Qed.

Lemma webhook_falls_back env d raw w :
  body_field d = VStr raw ->
  py_strip raw <> [] ->
  contains (text "link") (py_lower (py_strip raw)) = false ->
  contains (text "summary") (py_lower (py_strip raw)) = false ->
  (forall i n, ~ standalone_at (py_strip raw) i n) ->
  android_webhook env (Parsed (PDict d)) w
  = (Returned help_response,
     add [] [Send help_message (send_outcome env help_message)]
         [received_line d (py_strip raw); send_line env help_message] w).
Proof.
  intros Hb Hne Hl Hs Hno.
  rewrite (webhook_dispatch env d raw w Hb Hne).
  unfold try_except. rewrite (dispatch_fallback env _ _ Hl Hs Hno).
  rewrite fallback_run, add_add. reflexivity.
Qed.

Lemma body_field_single s :
  body_field {[ text "body" := VStr s ]} = VStr s.
Proof. unfold body_field. rewrite lookup_singleton_eq. reflexivity. Qed.

(** C1: a message that mentions neither "link" nor "summary" and holds a
    standalone rating 1..10 is logged with the first such rating, the
    search scanning from the left; a message with no standalone rating gets
    the help text, and so do "0", "11", "100" and "100mg", which hold
    none. *)
Theorem C1_first_rating_is_logged :
  (forall (env : Env) (d : gmap (list N) pyval) (raw : list N) (w : World)
          (i : nat) (n : Z),
      body_field d = VStr raw ->
      contains (text "link") (py_lower (py_strip raw)) = false ->
      contains (text "summary") (py_lower (py_strip raw)) = false ->
      first_standalone (py_strip raw) i n ->
      re_search urgency_pattern (py_strip raw)
        = Some {| m_start := i; m_group1 := decimal n |}
      /\ py_int (decimal n) = Some n
      /\ (appends_work env ->
          android_webhook env (Parsed (PDict d)) w
          = (Returned (logged_response n),
             add [[now_date env; now_time env; py_strip raw; decimal n]]
                 [StoreAppend (now_date env) (now_time env) (py_strip raw) n;
                  Send logged_message (send_outcome env logged_message)]
                 [received_line d (py_strip raw); send_line env logged_message]
                 w)))
  /\ (forall (env : Env) (d : gmap (list N) pyval) (raw : list N) (w : World),
      body_field d = VStr raw ->
      py_strip raw <> [] ->
      contains (text "link") (py_lower (py_strip raw)) = false ->
      contains (text "summary") (py_lower (py_strip raw)) = false ->
      (forall i n, ~ standalone_at (py_strip raw) i n) ->
      android_webhook env (Parsed (PDict d)) w
      = (Returned help_response,
         add [] [Send help_message (send_outcome env help_message)]
             [received_line d (py_strip raw); send_line env help_message] w))
  /\ Forall (fun s =>
        (forall i n, ~ standalone_at s i n)
        /\ forall (env : Env) (w : World),
             fst (android_webhook env
                    (Parsed (PDict {[ text "body" := VStr s ]})) w)
             = Returned help_response)
       [text "0"; text "11"; text "100"; text "100mg"].
Proof.
  split; [|split].
  - intros env d raw w i n Hb Hl Hs Hf.
    pose proof (proj1 Hf) as (Hn & _).
    split; [apply re_search_first; exact Hf|].
    split; [apply py_int_decimal; exact Hn|].
    intros Hw. apply (webhook_logs_rating env d raw w i n); assumption.
  - intros env d raw w. apply webhook_falls_back.
  - repeat (apply List.Forall_cons); try apply List.Forall_nil;
      (split; [intros i n; apply re_search_none; reflexivity|]);
      intros env w;
      match goal with
      | |- context [VStr ?s] =>
          rewrite (webhook_falls_back env _ s w (body_field_single s));
            [reflexivity | discriminate | reflexivity | reflexivity
            | intros i n; apply re_search_none; reflexivity]
      end.
Qed.


(** C5: a body that is empty or all whitespace is answered with 400 and
    nothing happens: no row is appended or read, nothing is sent, nothing
    is logged. *)
Theorem C5_blank_body_rejected (env : Env) (d : gmap (list N) pyval)
    (raw : list N) (w : World) :
  body_field d = VStr raw ->
  blank raw ->
  exists r,
    android_webhook env (Parsed (PDict d)) w = (Returned r, w)
    /\ status_code r = 400%Z
    /\ issued (android_webhook env (Parsed (PDict d))) w = [].
Proof.
  intros Hb Hblank.
  assert (Hrun : exists r, android_webhook env (Parsed (PDict d)) w = (Returned r, w)
                           /\ status_code r = 400%Z).
  { unfold android_webhook, try_except, bind, get_json, ret, py_get, truthy.
    destruct (bool_decide (d = ∅)); cbn [negb].
    - eexists. split; reflexivity.
    - unfold body_field in Hb. rewrite Hb. unfold strip_value, ret.
      cbv beta iota. rewrite (strip_blank raw Hblank).
      rewrite bool_decide_eq_true_2 by reflexivity.
      eexists. split; reflexivity. }
  destruct Hrun as (r & Hrun & Hcode). exists r.
  split; [exact Hrun|]. split; [exact Hcode|].
  rewrite <- (add_nothing w) in Hrun at 2. exact (issued_add _ _ _ _ _ _ Hrun).
Qed.

Lemma summary_nonempty t :
  contains (text "summary") (py_lower t) = true -> t <> [].
Proof. intros H ->. discriminate H. Qed.


Lemma webhook_summary_run env d raw w :
  body_field d = VStr raw ->
  contains (text "link") (py_lower (py_strip raw)) = false ->
  contains (text "summary") (py_lower (py_strip raw)) = true ->
  reads_work env ->
  android_webhook env (Parsed (PDict d)) w
  = (Returned (summary_response (length (entries_of (spec_last_rows (sheet w))))),
     add []
       [StoreRead;
        Send match entries_of (spec_last_rows (sheet w)) with
             | [] => no_entries_message
             | _ => join newline
                      (summary_title
                       :: map summary_line (entries_of (spec_last_rows (sheet w))))
             end
             (send_outcome env
                match entries_of (spec_last_rows (sheet w)) with
                | [] => no_entries_message
                | _ => join newline
                         (summary_title
                          :: map summary_line (entries_of (spec_last_rows (sheet w))))
                end)]
       [received_line d (py_strip raw);
        send_line env
          match entries_of (spec_last_rows (sheet w)) with
          | [] => no_entries_message
          | _ => join newline
                   (summary_title
                    :: map summary_line (entries_of (spec_last_rows (sheet w))))
          end] w).
Proof.
  intros Hb Hl Hs [Hopen Hread].
  rewrite (webhook_dispatch env d raw w Hb (summary_nonempty _ Hs)).
  unfold try_except, dispatch. cbv zeta. rewrite Hl, Hs.
  rewrite branch_summary_run, Hopen, Hread. cbv zeta.
  rewrite sheet_untouched, add_add. reflexivity.
Qed.




Lemma issued_nothing {A} (m : M A) w r : m w = (r, w) -> issued m w = [].
Proof.
  intros E. rewrite <- (add_nothing w) in E at 2.
  exact (issued_add _ _ _ _ _ _ E).
Qed.

Lemma trigger_run env provided w :
  trigger_daily_checkin env provided w
  = if negb (is_set (CRON_SECRET env)) then
      (Returned (jsonify 500 [lit "error" "CRON_SECRET not configured on server"]), w)
    else if negb (bool_decide (provided = CRON_SECRET env)) then
      (Returned (jsonify 403 [lit "error" "Invalid or missing secret"]), w)
    else
      (Returned
         (if delivered (send_outcome env checkin_prompt)
          then jsonify 200 [lit "status" "success";
                            lit "message" "Daily check-in sent"]
          else jsonify 500 [lit "status" "error";
                            lit "message" "Failed to send SMS"]),
       add [] [Send checkin_prompt (send_outcome env checkin_prompt)]
           [send_line env checkin_prompt] w).
Proof.
  unfold trigger_daily_checkin.
  destruct (negb (is_set (CRON_SECRET env))); [reflexivity|].
  destruct (negb (bool_decide (provided = CRON_SECRET env))); [reflexivity|].
  cbv zeta. unfold bind. rewrite send_run.
  destruct (delivered (send_outcome env checkin_prompt)); reflexivity.
Qed.

(** C7: the cron trigger answers 500 when the server has no secret; with
    a secret, a request whose secret is missing or is not exactly that
    text is answered 403 and nothing is sent; on the exact secret the
    check-in prompt is sent once and the answer tells whether the
    notifier delivered it. *)
Theorem C7_cron_secret (env : Env) (provided : option (list N)) (w : World) :
  (is_set (CRON_SECRET env) = false ->
     trigger_daily_checkin env provided w
     = (Returned (jsonify 500 [lit "error" "CRON_SECRET not configured on server"]),
        w))
  /\ (is_set (CRON_SECRET env) = true -> provided <> CRON_SECRET env ->
      trigger_daily_checkin env provided w
      = (Returned (jsonify 403 [lit "error" "Invalid or missing secret"]), w)
      /\ issued (trigger_daily_checkin env provided) w = [])
  /\ (is_set (CRON_SECRET env) = true -> provided = CRON_SECRET env ->
      trigger_daily_checkin env provided w
      = (Returned
           (if delivered (send_outcome env checkin_prompt)
            then jsonify 200 [lit "status" "success";
                              lit "message" "Daily check-in sent"]
            else jsonify 500 [lit "status" "error";
                              lit "message" "Failed to send SMS"]),
         add [] [Send checkin_prompt (send_outcome env checkin_prompt)]
             [send_line env checkin_prompt] w)).
Proof.
  pose proof (trigger_run env provided w) as E.
  conj_split.
  - intros Hset. rewrite Hset in E. exact E.
  - intros Hset Hne. rewrite Hset in E. cbn [negb] in E.
    rewrite (bool_decide_eq_false_2 _ Hne) in E. cbn [negb] in E.
    split; [exact E | exact (issued_nothing _ _ _ E)].
  - intros Hset Heq. rewrite Hset in E. cbn [negb] in E.
    rewrite (bool_decide_eq_true_2 _ Heq) in E. exact E.
Qed.



(** C9: whatever the request, the rows already in the sheet stay as they
    are and in place; a row is only ever added behind them, by the
    webhook, and it holds the trimmed body as received and the first
    standalone rating of that body, a number from 1 to 10. *)
Theorem C9_appended_rows (env : Env) (r : http_request) (w : World) :
  (exists rows,
      sheet (snd (serve env r w)) = sheet w ++ rows
      /\ forall row, In row rows ->
           rows = [row]
           /\ exists d raw i u,
                r = PostWebhook (Parsed (PDict d))
                /\ body_field d = VStr raw
                /\ first_standalone (py_strip raw) i u
                /\ (1 <= u <= 10)%Z
                /\ row = [now_date env; now_time env; py_strip raw; decimal u]
                /\ In (StoreAppend (now_date env) (now_time env) (py_strip raw) u)
                      (issued (serve env r) w))
  /\ (forall dt tm b u,
        In (StoreAppend dt tm b u) (issued (serve env r) w) ->
        (1 <= u <= 10)%Z
        /\ exists d raw i,
             r = PostWebhook (Parsed (PDict d))
             /\ body_field d = VStr raw
             /\ b = py_strip raw
             /\ first_standalone b i u).
Proof.
  destruct r as [| secret | req]; cbn [serve].
  - assert (E : index w = (Returned (jsonify 200
        [lit "status" "ok"; lit "service" "Personal Health SMS Bot";
         member "endpoints"
           (JList [text "GET /trigger-daily-checkin?secret=YOUR_SECRET";
                   text "POST /android-webhook"])]), w)) by reflexivity.
    rewrite (issued_nothing _ _ _ E). split.
    + exists []. rewrite app_nil_r. split; [reflexivity | intros row []].
    + intros dt tm b u [].
  - pose proof (trigger_run env secret w) as E.
    destruct (negb (is_set (CRON_SECRET env)));
      [|destruct (negb (bool_decide (secret = CRON_SECRET env)))].
    + rewrite (issued_nothing _ _ _ E), E. split.
      * exists []. cbn. rewrite app_nil_r. split; [reflexivity | intros row []].
      * intros dt tm b u [].
    + rewrite (issued_nothing _ _ _ E), E. split.
      * exists []. cbn. rewrite app_nil_r. split; [reflexivity | intros row []].
      * intros dt tm b u [].
    + rewrite (issued_add _ _ _ _ _ _ E), E. split.
      * exists []. cbn. split; [reflexivity | intros row []].
      * intros dt tm b u [Hin | []]. discriminate Hin.
  - destruct (webhook_observed env req w) as (_ & -> & ->).
    destruct (webhook_effect_cases env req (sheet w))
      as [(-> & -> & _) | (d & raw & -> & Hb & Hne & _ & -> & ->)].
    { split; [exists []; split; [reflexivity | intros row []]|].
      intros dt tm b u []. }
    destruct (dispatch_effect_cases env (py_strip raw) (sheet w))
      as [(r & m & -> & _) | [(k & m & -> & _) | [(i & n & Hf & _ & ->)
         | [(ex & -> & _) | [(ex & -> & _) | (ex & i & n & Hf & -> & _)]]]]];
      cbn [replied failed new_rows calls app].
    + split; [exists []; split; [reflexivity | intros row []]|].
      intros dt tm b u [Hin | []]. discriminate Hin.
    + split; [exists []; split; [reflexivity | intros row []]|].
      intros dt tm b u [Hin | [Hin | []]]; discriminate Hin.
    + split.
      * eexists. split; [reflexivity|].
        intros row [<- | []]. split; [reflexivity|].
        exists d, raw, i, n. conj_split; auto; try apply Hf.
        left. reflexivity.
      * intros dt tm b u [Hin | [Hin | []]]; [|discriminate Hin].
        injection Hin as <- <- <- <-. split; [apply Hf|].
        exists d, raw, i. conj_split; auto.
    + split; [exists []; split; [reflexivity | intros row []]|].
      intros dt tm b u [].
    + split; [exists []; split; [reflexivity | intros row []]|].
      intros dt tm b u [Hin | []]. discriminate Hin.
    + split; [exists []; split; [reflexivity | intros row []]|].
      intros dt tm b u [Hin | []].
      injection Hin as <- <- <- <-. split; [apply Hf|].
      exists d, raw, i. conj_split; auto.
Qed.

Lemma text_sender_body : text "sender" <> text "body".
Proof. discriminate. Qed.

(** C10 (as the code has it): two payloads with the same value under
    "body", or both without one, get the same status, add the same rows
    and issue the same calls, whatever stands under "sender" and whether
    it is there; the JSON of the answer is the same too, unless exactly
    one of the two payloads is the empty object.  A payload without
    "sender" is handled, log included, as if it named "unknown". *)
Theorem C10_sender_ignored (env : Env) (d1 d2 : gmap (list N) pyval)
    (w : World) :
  d1 !! text "body" = d2 !! text "body" ->
  (exists r1 r2,
      fst (android_webhook env (Parsed (PDict d1)) w) = Returned r1
      /\ fst (android_webhook env (Parsed (PDict d2)) w) = Returned r2
      /\ status_code r1 = status_code r2
      /\ ((d1 = ∅ <-> d2 = ∅) -> r1 = r2))
  /\ sheet (snd (android_webhook env (Parsed (PDict d1)) w))
     = sheet (snd (android_webhook env (Parsed (PDict d2)) w))
  /\ issued (android_webhook env (Parsed (PDict d1))) w
     = issued (android_webhook env (Parsed (PDict d2))) w
  /\ (d1 <> ∅ -> d1 !! text "sender" = None ->
      android_webhook env (Parsed (PDict d1)) w
      = android_webhook env
          (Parsed (PDict (<[text "sender" := VStr (text "unknown")]> d1))) w).
Proof.
  intros Hbody.
  destruct (webhook_observed env (Parsed (PDict d1)) w) as (-> & -> & ->).
  destruct (webhook_observed env (Parsed (PDict d2)) w) as (-> & -> & ->).
  assert (Hf : body_field d1 = body_field d2).
  { unfold body_field. rewrite Hbody. reflexivity. }
  assert (Hblank : forall d : gmap (list N) pyval,
             d !! text "body" = None -> body_field d = VStr []).
  { intros d Hd. unfold body_field. rewrite Hd. reflexivity. }
  assert (Hcases :
    (d1 = ∅ /\ d2 = ∅)
    \/ (d1 = ∅ /\ d2 <> ∅ /\ body_field d2 = VStr [])
    \/ (d1 <> ∅ /\ d2 = ∅ /\ body_field d1 = VStr [])
    \/ (d1 <> ∅ /\ d2 <> ∅)).
  { destruct (decide (d1 = ∅)) as [E1 | H1]; destruct (decide (d2 = ∅)) as [E2 | H2].
    - left. split; assumption.
    - right. left. conj_split; auto. apply Hblank.
      rewrite <- Hbody, E1. apply lookup_empty.
    - right. right. left. conj_split; auto. apply Hblank.
      rewrite Hbody, E2. apply lookup_empty.
    - right. right. right. split; assumption. }
  assert (Hempty : forall d : gmap (list N) pyval, d = ∅ ->
            webhook_effect env (Parsed (PDict d)) (sheet w)
            = rejected "No JSON payload received").
  { intros d Hd. unfold webhook_effect.
    rewrite (bool_decide_eq_true_2 _ Hd). reflexivity. }
  assert (Hnobody : forall d : gmap (list N) pyval, d <> ∅ ->
            body_field d = VStr [] ->
            webhook_effect env (Parsed (PDict d)) (sheet w)
            = rejected "Empty message body").
  { intros d Hd Hb. unfold webhook_effect.
    rewrite (bool_decide_eq_false_2 _ Hd), Hb.
    rewrite bool_decide_eq_true_2 by reflexivity. reflexivity. }
  assert (Hfull : d1 <> ∅ -> d2 <> ∅ ->
            answer (webhook_effect env (Parsed (PDict d1)) (sheet w))
            = answer (webhook_effect env (Parsed (PDict d2)) (sheet w))
            /\ new_rows (webhook_effect env (Parsed (PDict d1)) (sheet w))
               = new_rows (webhook_effect env (Parsed (PDict d2)) (sheet w))
            /\ calls (webhook_effect env (Parsed (PDict d1)) (sheet w))
               = calls (webhook_effect env (Parsed (PDict d2)) (sheet w))).
  { intros H1 H2. unfold webhook_effect.
    rewrite (bool_decide_eq_false_2 _ H1), (bool_decide_eq_false_2 _ H2), <- Hf.
    destruct (body_field d1) as [raw | ty shown];
      [destruct (bool_decide (py_strip raw = []))|]; conj_split; reflexivity. }
  conj_split.
  - eexists _, _. split; [reflexivity|]. split; [reflexivity|].
    destruct Hcases as [[E1 E2] | [(E1 & H2 & Hb) | [(H1 & E2 & Hb) | [H1 H2]]]].
    + rewrite (Hempty d1 E1), (Hempty d2 E2). split; [reflexivity | intros _; reflexivity].
    + rewrite (Hempty d1 E1), (Hnobody d2 H2 Hb).
      split; [reflexivity|]. intros [Himp _]. destruct (H2 (Himp E1)).
    + rewrite (Hnobody d1 H1 Hb), (Hempty d2 E2).
      split; [reflexivity|]. intros [_ Himp]. destruct (H1 (Himp E2)).
    + destruct (Hfull H1 H2) as (-> & _). split; [reflexivity | intros _; reflexivity].
  - f_equal.
    destruct Hcases as [[E1 E2] | [(E1 & H2 & Hb) | [(H1 & E2 & Hb) | [H1 H2]]]].
    + rewrite (Hempty d1 E1), (Hempty d2 E2). reflexivity.
    + rewrite (Hempty d1 E1), (Hnobody d2 H2 Hb). reflexivity.
    + rewrite (Hnobody d1 H1 Hb), (Hempty d2 E2). reflexivity.
    + apply (Hfull H1 H2).
  - destruct Hcases as [[E1 E2] | [(E1 & H2 & Hb) | [(H1 & E2 & Hb) | [H1 H2]]]].
    + rewrite (Hempty d1 E1), (Hempty d2 E2). reflexivity.
    + rewrite (Hempty d1 E1), (Hnobody d2 H2 Hb). reflexivity.
    + rewrite (Hnobody d1 H1 Hb), (Hempty d2 E2). reflexivity.
    + apply (Hfull H1 H2).
  - intros H1 Hs. rewrite !android_webhook_effect. cbv zeta.
    assert (E : webhook_effect env
                  (Parsed (PDict (<[text "sender" := VStr (text "unknown")]> d1)))
                  (sheet w)
                = webhook_effect env (Parsed (PDict d1)) (sheet w)).
    { unfold webhook_effect.
      rewrite (bool_decide_eq_false_2 _ H1).
      rewrite (bool_decide_eq_false_2 _ (insert_non_empty d1 _ _)).
      unfold body_field, received_line.
      rewrite (lookup_insert_ne d1 _ _ _ text_sender_body).
      rewrite lookup_insert_eq, Hs. reflexivity. }
    rewrite E. reflexivity.
Qed.

End HandlerProperties.

(** * Further properties of the handlers *)

Section MoreProperties.
Context {U : Unicode}.




(** A message that needs the sheet: it mentions "summary", or it holds a
    rating, and it does not mention "link". *)
Lemma needs_sheet_effect env t rows0 e :
  contains (text "link") (py_lower t) = false ->
  contains (text "summary") (py_lower t) = true
  \/ re_search urgency_pattern t <> None ->
  sheet_error env = Some e ->
  dispatch_effect env t rows0 = failed e [].
Proof.
  intros Hl Hneed He. unfold dispatch_effect. rewrite Hl.
  destruct (contains (text "summary") (py_lower t)).
  { rewrite He. reflexivity. }
  destruct Hneed as [Hs | Hre]; [discriminate Hs|].
  destruct (re_search urgency_pattern t) as [m|] eqn:E; [|congruence].
  destruct (rating_parses t m E) as (n & _ & ->).
  rewrite He. reflexivity.
Qed.

Lemma webhook_sheet_failure env d raw w e :
  body_field d = VStr raw ->
  py_strip raw <> [] ->
  contains (text "link") (py_lower (py_strip raw)) = false ->
  contains (text "summary") (py_lower (py_strip raw)) = true
  \/ re_search urgency_pattern (py_strip raw) <> None ->
  sheet_error env = Some e ->
  android_webhook env (Parsed (PDict d)) w
  = (Returned (error_response e),
     add [] [] (received_line d (py_strip raw) :: error_lines e) w).
Proof.
  intros Hb Hne Hl Hneed He.
  rewrite (webhook_dispatch env d raw w Hb Hne), dispatch_observed.
  cbv zeta. rewrite (needs_sheet_effect env _ _ e Hl Hneed He).
  cbn [answer new_rows calls lines failed]. rewrite add_add. reflexivity.
Qed.

(** Credentials that are set but are not valid JSON: [json.loads] raises
    a [JSONDecodeError] inside [get_google_sheet], and the webhook's first
    [except] clause takes it for a bad request.  A summary or rating
    message is then answered 400 "Invalid JSON payload"; the sheet and the
    notifier are not called and no error is logged. *)
Theorem bad_credentials_reported_as_bad_request (env : Env)
    (d : gmap (list N) pyval) (raw : list N) (w : World) (e : exn) :
  body_field d = VStr raw ->
  py_strip raw <> [] ->
  contains (text "link") (py_lower (py_strip raw)) = false ->
  contains (text "summary") (py_lower (py_strip raw)) = true
  \/ re_search urgency_pattern (py_strip raw) <> None ->
  is_set (GOOGLE_CREDENTIALS env) = true ->
  is_set (GOOGLE_SHEET_ID env) = true ->
  open_fault env = Some e ->
  e_class e = JSONDecodeError ->
  android_webhook env (Parsed (PDict d)) w
  = (Returned (jsonify 400 [lit "error" "Invalid JSON payload"]),
     add [] [] [received_line d (py_strip raw)] w).
Proof.
  intros Hb Hne Hl Hneed Hc Hi Ho Hclass.
  assert (He : sheet_error env = Some e).
  { unfold sheet_error. rewrite Hc, Hi. exact Ho. }
  rewrite (webhook_sheet_failure env d raw w e Hb Hne Hl Hneed He).
  unfold error_response, error_lines. rewrite Hclass. reflexivity.
Qed.

(** The credentials are looked at before the sheet id: without
    credentials a summary or rating message is answered 500 with the text
    that names GOOGLE_CREDENTIALS, whatever the sheet id; with credentials
    and without a sheet id, with the text that names GOOGLE_SHEET_ID.  In
    both cases neither the sheet nor the notifier is called. *)
Theorem missing_configuration_answer (env : Env) (d : gmap (list N) pyval)
    (raw : list N) (w : World) :
  body_field d = VStr raw ->
  py_strip raw <> [] ->
  contains (text "link") (py_lower (py_strip raw)) = false ->
  contains (text "summary") (py_lower (py_strip raw)) = true
  \/ re_search urgency_pattern (py_strip raw) <> None ->
  (is_set (GOOGLE_CREDENTIALS env) = false ->
   fst (android_webhook env (Parsed (PDict d)) w)
   = Returned (jsonify 500
       [member "error"
          (JStr (text "GOOGLE_CREDENTIALS environment variable not set"))])
   /\ issued (android_webhook env (Parsed (PDict d))) w = []
   /\ sheet (snd (android_webhook env (Parsed (PDict d)) w)) = sheet w)
  /\ (is_set (GOOGLE_CREDENTIALS env) = true ->
      is_set (GOOGLE_SHEET_ID env) = false ->
      fst (android_webhook env (Parsed (PDict d)) w)
      = Returned (jsonify 500
          [member "error"
             (JStr (text "GOOGLE_SHEET_ID environment variable not set"))])
      /\ issued (android_webhook env (Parsed (PDict d))) w = []
      /\ sheet (snd (android_webhook env (Parsed (PDict d)) w)) = sheet w).
Proof.
  intros Hb Hne Hl Hneed. split.
  - intros Hc.
    assert (He : sheet_error env
                 = Some {| e_class := ValueError;
                           e_text := text "GOOGLE_CREDENTIALS environment variable not set" |}).
    { unfold sheet_error. rewrite Hc. reflexivity. }
    pose proof (webhook_sheet_failure env d raw w _ Hb Hne Hl Hneed He) as E.
    conj_split.
    + rewrite E. reflexivity.
    + exact (issued_add _ _ _ _ _ _ E).
    + rewrite E. apply sheet_untouched.
  - intros Hc Hi.
    assert (He : sheet_error env
                 = Some {| e_class := ValueError;
                           e_text := text "GOOGLE_SHEET_ID environment variable not set" |}).
    { unfold sheet_error. rewrite Hc, Hi. reflexivity. }
    pose proof (webhook_sheet_failure env d raw w _ Hb Hne Hl Hneed He) as E.
    conj_split.
    + rewrite E. reflexivity.
    + exact (issued_add _ _ _ _ _ _ E).
    + rewrite E. apply sheet_untouched.
Qed.

(** A payload that is not an object but counts as true (a list, a
    number, a text), and an object whose "body" is not a text: the missing
    method raises, and the answer is 500 with the text of the
    [AttributeError], not 400.  Nothing is called. *)
Theorem wrong_type_is_a_server_error (env : Env) (w : World) :
  (forall ty : list N,
      android_webhook env (Parsed (POther ty true)) w
      = (Returned (jsonify 500 [member "error" (JStr (e_text (no_attribute ty "get")))]),
         add [] [] [(Error, text "Error processing webhook: "
                            ++ e_text (no_attribute ty "get"))] w))
  /\ (forall (d : gmap (list N) pyval) (ty shown : list N),
      d !! text "body" = Some (VOther ty shown) ->
      android_webhook env (Parsed (PDict d)) w
      = (Returned (jsonify 500 [member "error" (JStr (e_text (no_attribute ty "strip")))]),
         add [] [] [(Error, text "Error processing webhook: "
                            ++ e_text (no_attribute ty "strip"))] w)).
Proof.
  split.
  - intros ty. rewrite android_webhook_effect. reflexivity.
  - intros d ty shown Hb. rewrite android_webhook_effect.
    unfold webhook_effect.
    assert (Hd : d <> ∅).
    { intros ->. rewrite lookup_empty in Hb. discriminate. }
    rewrite (bool_decide_eq_false_2 _ Hd). unfold body_field. rewrite Hb.
    reflexivity.
Qed.



Lemma entries_of_long a b c e r rows :
  entries_of ((a :: b :: c :: e :: r) :: rows)
  = {| date := a; time := b; body := c; urgency := e |} :: entries_of rows.
Proof. reflexivity. Qed.

Lemma entries_of_app rows1 rows2 :
  entries_of (rows1 ++ rows2) = entries_of rows1 ++ entries_of rows2.
Proof.
  induction rows1 as [|r rows1 IH]; [reflexivity|].
  destruct r as [|a [|b [|c [|e r]]]];
    try (change (entries_of (?x :: rows1 ++ rows2)) with (entries_of (rows1 ++ rows2));
         exact IH).
  cbn [app]. rewrite !entries_of_long, IH. reflexivity.
Qed.

Lemma entries_of_length rows : (length (entries_of rows) <= length rows)%nat.
Proof.
  induction rows as [|r rows IH]; [reflexivity|].
  destruct r as [|a [|b [|c [|e r]]]];
    try (change (entries_of (?x :: rows)) with (entries_of rows); cbn; lia).
  rewrite entries_of_long. cbn. lia.
Qed.

Lemma spec_last_rows_snoc rows row :
  rows <> [] ->
  exists earlier, spec_last_rows (rows ++ [row]) = earlier ++ [row].
Proof.
  intros Hne. unfold spec_last_rows.
  destruct rows as [|r0 rows]; [congruence|].
  cbn [app drop]. rewrite !drop_0.
  rewrite drop_app_le by (rewrite length_app; cbn; lia).
  eexists. reflexivity.
Qed.

(** Round trip: once a rating message has been logged into a sheet that
    already holds a row (the header), the entry read back last is the
    one just written: the trimmed body, the rating as text, the date and
    time of the request. *)
Theorem logged_entry_is_read_back_last (env : Env) (d : gmap (list N) pyval)
    (raw : list N) (w : World) (i : nat) (n : Z) :
  body_field d = VStr raw ->
  contains (text "link") (py_lower (py_strip raw)) = false ->
  contains (text "summary") (py_lower (py_strip raw)) = false ->
  first_standalone (py_strip raw) i n ->
  appends_work env -> reads_work env ->
  sheet w <> [] ->
  exists earlier,
    fst (get_last_entries env 3 (snd (android_webhook env (Parsed (PDict d)) w)))
    = Returned (earlier ++ [{| date := now_date env; time := now_time env;
                               body := py_strip raw; urgency := decimal n |}]).
Proof.
  intros Hb Hl Hs Hf Happ [Hopen Hread] Hne.
  rewrite (webhook_logs_rating env d raw w i n Hb Hl Hs Hf Happ).
  rewrite get_last_entries_run, Hopen, Hread.
  cbn [fst snd add sheet].
  destruct (spec_last_rows_snoc (sheet w)
              [now_date env; now_time env; py_strip raw; decimal n] Hne)
    as [earlier ->].
  rewrite entries_of_app. exists (entries_of earlier). reflexivity.
Qed.

(** The first row is always taken for the header: a rating logged into
    an empty sheet is stored, but a summary asked for right after it
    reports no entry and sends the "no entries" text. *)
Theorem first_entry_taken_for_header (env : Env) (d d' : gmap (list N) pyval)
    (raw raw' : list N) (w : World) (i : nat) (n : Z) :
  body_field d = VStr raw ->
  contains (text "link") (py_lower (py_strip raw)) = false ->
  contains (text "summary") (py_lower (py_strip raw)) = false ->
  first_standalone (py_strip raw) i n ->
  appends_work env -> reads_work env ->
  sheet w = [] ->
  body_field d' = VStr raw' ->
  contains (text "link") (py_lower (py_strip raw')) = false ->
  contains (text "summary") (py_lower (py_strip raw')) = true ->
  let w1 := snd (android_webhook env (Parsed (PDict d)) w) in
  sheet w1 = [[now_date env; now_time env; py_strip raw; decimal n]]
  /\ fst (android_webhook env (Parsed (PDict d')) w1)
     = Returned (summary_response 0)
  /\ issued (android_webhook env (Parsed (PDict d'))) w1
     = [StoreRead;
        Send no_entries_message (send_outcome env no_entries_message)].
Proof.
  intros Hb Hl Hs Hf Happ Hreads Hempty Hb' Hl' Hs' w1.
  assert (Hsheet : sheet w1 = [[now_date env; now_time env; py_strip raw; decimal n]]).
  { unfold w1. rewrite (webhook_logs_rating env d raw w i n Hb Hl Hs Hf Happ).
    cbn [snd add sheet]. rewrite Hempty. reflexivity. }
  pose proof (webhook_summary_run env d' raw' w1 Hb' Hl' Hs' Hreads) as E.
  rewrite Hsheet in E.
  change (entries_of (spec_last_rows
            [[now_date env; now_time env; py_strip raw; decimal n]]))
    with (@nil entry) in E.
  conj_split.
  - exact Hsheet.
  - rewrite E. reflexivity.
  - exact (issued_add _ _ _ _ _ _ E).
Qed.

Lemma slice_last {A} (l : list A) (count : Z) :
  (1 <= count <= Z.of_nat (length l))%Z ->
  slice_from (- count) l = drop (length l - Z.to_nat count) l.
Proof.
  intros H. unfold slice_from.
  replace (- count <? 0)%Z with true by (symmetry; apply Z.ltb_lt; lia).
  f_equal. lia.
Qed.

(** [get_last_entries] with any count of at least one: what it returns
    are the entries of the last [count] rows behind the first row (of all
    of them when they are fewer), in the order of the sheet, so never
    more than [count] entries; the sheet is left as it was. *)
Theorem get_last_entries_at_most (env : Env) (count : Z) (w w' : World)
    (es : list entry) :
  (1 <= count)%Z ->
  get_last_entries env count w = (Returned es, w') ->
  es = entries_of (drop (length (drop 1 (sheet w)) - Z.to_nat count)
                        (drop 1 (sheet w)))
  /\ (length es <= Z.to_nat count)%nat
  /\ sheet w' = sheet w.
Proof.
  intros Hc. unfold get_last_entries, bind. rewrite get_google_sheet_run.
  destruct (sheet_error env); [discriminate|].
  unfold get_all_values, bind. rewrite emit_run.
  destruct (read_fault env); [discriminate|].
  change (sheet (add [] [StoreRead] [] w)) with (sheet w ++ []).
  rewrite app_nil_r. unfold ret.
  assert (Hlen : forall k (l : list (list (list N))),
            (length (entries_of (drop (length l - k) l)) <= k)%nat).
  { intros k l. etransitivity; [apply entries_of_length|].
    rewrite length_drop. lia. }
  destruct (length (sheet w) <=? 1)%nat eqn:E.
  - apply Nat.leb_le in E. intros [= <- <-].
    rewrite (drop_ge (sheet w) 1) by exact E.
    conj_split; [reflexivity | cbn; lia | apply sheet_untouched].
  - destruct (count <=? Z.of_nat (length (drop 1 (sheet w))))%Z eqn:E3.
    + apply Z.leb_le in E3. intros [= <- <-].
      rewrite slice_last by lia.
      conj_split; [reflexivity | apply Hlen | apply sheet_untouched].
    + apply Z.leb_gt in E3. intros [= <- <-].
      replace (length (drop 1 (sheet w)) - Z.to_nat count)%nat with 0%nat by lia.
      conj_split; [reflexivity | | apply sheet_untouched].
      etransitivity; [apply entries_of_length | lia].
Qed.

(** With a count of zero the slice [data_rows[-0:]] is the whole list:
    [get_last_entries(0)] returns the entries of every row behind the
    first, not none. *)
Theorem get_last_entries_zero_is_all (env : Env) (w w' : World)
    (es : list entry) :
  get_last_entries env 0 w = (Returned es, w') ->
  es = entries_of (drop 1 (sheet w)).
Proof.
  unfold get_last_entries, bind. rewrite get_google_sheet_run.
  destruct (sheet_error env); [discriminate|].
  unfold get_all_values, bind. rewrite emit_run.
  destruct (read_fault env); [discriminate|].
  change (sheet (add [] [StoreRead] [] w)) with (sheet w ++ []).
  rewrite app_nil_r. unfold ret.
  destruct (length (sheet w) <=? 1)%nat eqn:E.
  - apply Nat.leb_le in E. intros [= <- <-].
    rewrite (drop_ge (sheet w) 1) by exact E. reflexivity.
  - intros [= <- <-].
    replace (0 <=? Z.of_nat (length (drop 1 (sheet w))))%Z with true
      by (symmetry; apply Z.leb_le; lia).
    unfold slice_from. cbn [Z.opp Z.ltb Z.compare].
    rewrite Z.min_l by lia. reflexivity.
Qed.

Lemma hex_digit_range n :
  (48 <= hex_digit n <= 57) \/ 65 <= hex_digit n.
Proof.
  unfold hex_digit. destruct (n <? 10) eqn:E.
  - apply N.ltb_lt in E. left. lia.
  - apply N.ltb_ge in E. right. lia.
Qed.

Lemma hex_digit_safe n : n < 16 -> always_safe (hex_digit n) = true.
Proof.
  intros Hn. unfold hex_digit, always_safe. destruct (n <? 10) eqn:E.
  - apply N.ltb_lt in E.
    replace (in_range 48 57 (48 + n)) with true
      by (symmetry; apply in_range_spec; lia).
    rewrite !orb_true_r. reflexivity.
  - apply N.ltb_ge in E.
    replace (in_range 65 90 (55 + n)) with true
      by (symmetry; apply in_range_spec; lia).
    reflexivity.
Qed.

Lemma always_safe_plain b :
  always_safe b = true ->
  b <> 38 /\ b <> 61 /\ b <> 63 /\ b <> 35 /\ b <> 43 /\ b <> 32.
Proof.
  intros H. conj_split; intros ->; discriminate H.
Qed.

Lemma quote_byte_plain b :
  Forall (fun c => c <> 38 /\ c <> 61 /\ c <> 63 /\ c <> 35 /\ c <> 43 /\ c <> 32)
         (quote_byte b).
Proof.
  unfold quote_byte. destruct (always_safe b || (b =? 47)) eqn:E.
  - constructor; [|constructor].
    apply orb_true_iff in E as [E | E].
    + apply always_safe_plain. exact E.
    + apply N.eqb_eq in E. subst b. conj_split; discriminate.
  - pose proof (hex_digit_range (b / 16)) as H1.
    pose proof (hex_digit_range (b mod 16)) as H2.
    repeat constructor; try discriminate; lia.
Qed.

Lemma quote_byte_alphabet b :
  b < 256 ->
  Forall (fun c => always_safe c = true \/ c = 47 \/ c = 37) (quote_byte b).
Proof.
  intros Hb. unfold quote_byte. destruct (always_safe b || (b =? 47)) eqn:E.
  - constructor; [|constructor].
    apply orb_true_iff in E as [E | E]; [left; exact E|].
    apply N.eqb_eq in E. right. left. exact E.
  - constructor; [right; right; reflexivity|].
    constructor; [left; apply hex_digit_safe|].
    { apply N.Div0.div_lt_upper_bound. lia. }
    constructor; [left; apply hex_digit_safe | constructor].
    apply N.mod_lt. discriminate.
Qed.

Lemma utf8_bytes c : c < 0x110000 -> Forall (fun b => b < 256) (utf8 c).
Proof.
  intros Hc. unfold utf8.
  assert (H64 : forall x, x mod 64 < 64) by (intros x; apply N.mod_lt; discriminate).
  destruct (c <? 128) eqn:E1.
  { apply N.ltb_lt in E1. repeat constructor. lia. }
  destruct (c <? 2048) eqn:E2.
  { apply N.ltb_lt in E2.
    assert (c / 64 < 32) by (apply N.Div0.div_lt_upper_bound; lia).
    pose proof (H64 c). repeat constructor; lia. }
  destruct (c <? 65536) eqn:E3.
  { apply N.ltb_lt in E3.
    assert (c / 4096 < 16) by (apply N.Div0.div_lt_upper_bound; lia).
    pose proof (H64 c). pose proof (H64 (c / 64)). repeat constructor; lia. }
  assert (c / 262144 < 8) by (apply N.Div0.div_lt_upper_bound; lia).
  pose proof (H64 c). pose proof (H64 (c / 64)). pose proof (H64 (c / 4096)).
  repeat constructor; lia.
Qed.

(** The address the gateway is asked for is the configured one with one
    parameter added: "&text=..." when the address has a "?" already,
    "?text=..." when not.  The encoded message holds no "&", "=", "?",
    "#", "+" and no space, so it cannot end the parameter, open another or
    start a fragment; for a message of Unicode code points it is made of
    unreserved characters, "/" and "%" only. *)
Theorem push_url_adds_one_parameter (url msg : list N) :
  push_url url msg
  = url ++ (if contains (text "?") url then text "&" else text "?")
        ++ text "text=" ++ quote msg
  /\ Forall (fun c => c <> 38 /\ c <> 61 /\ c <> 63 /\ c <> 35 /\ c <> 43
                      /\ c <> 32) (quote msg)
  /\ (Forall (fun c => c < 0x110000) msg ->
      Forall (fun c => always_safe c = true \/ c = 47 \/ c = 37) (quote msg)).
Proof.
  split; [reflexivity|]. split.
  - unfold quote. induction (flat_map utf8 msg) as [|b bs IH]; [constructor|].
    cbn [flat_map]. apply Forall_app. split; [apply quote_byte_plain | exact IH].
  - intros Hmsg. unfold quote.
    assert (Hbytes : Forall (fun b => b < 256) (flat_map utf8 msg)).
    { induction Hmsg as [|c cs Hc _ IH]; [constructor|].
      cbn [flat_map]. apply Forall_app. split; [apply utf8_bytes; exact Hc | exact IH]. }
    induction Hbytes as [|b bs Hb _ IH]; [constructor|].
    cbn [flat_map]. apply Forall_app.
    split; [apply quote_byte_alphabet; exact Hb | exact IH].
Qed.


Lemma head_differs {A} (a b : list A) : head a <> head b -> a <> b.
Proof. intros H ->. apply H. reflexivity. Qed.

Lemma summary_text_head l :
  head (join newline (summary_title :: l)) = Some 0xF0.
Proof. destruct l; reflexivity. Qed.

(** The acknowledgement and the row go together: the webhook calls the
    notifier with "Logged. ..." exactly in the runs in which it has added a
    row to the sheet. *)
Theorem acknowledged_iff_stored (env : Env) (req : json_request) (w : World) :
  (exists res,
      In (Send logged_message res) (issued (android_webhook env req) w))
  <-> (exists row, sheet (snd (android_webhook env req w)) = sheet w ++ [row]).
Proof.
  destruct (webhook_observed env req w) as (_ & -> & ->).
  assert (Hrows : forall e : effect,
            (exists row, sheet w ++ new_rows e = sheet w ++ [row])
            <-> exists row, new_rows e = [row]).
  { intros e. split; intros [row H]; exists row.
    - apply app_inv_head in H. exact H.
    - rewrite H. reflexivity. }
  rewrite Hrows.
  assert (Hquiet : forall e : effect,
            new_rows e = [] -> (forall res, ~ In (Send logged_message res) (calls e)) ->
            ((exists res, In (Send logged_message res) (calls e))
             <-> exists row, new_rows e = [row])).
  { intros e Hr Hc. split.
    - intros [res Hin]. destruct (Hc _ Hin).
    - intros [row H]. rewrite Hr in H. discriminate. }
  assert (Hother : forall (r : Response) (ops : list event) (msg : list N),
            head msg <> head logged_message ->
            (forall res, ~ In (Send logged_message res) ops) ->
            forall res, ~ In (Send logged_message res) (calls (replied env r [] ops msg))).
  { intros r ops msg Hm Hops res Hin. cbn [replied calls] in Hin.
    apply in_app_or in Hin as [Hin | [Hin | []]]; [exact (Hops _ Hin)|].
    injection Hin as Hmsg _. apply Hm. rewrite Hmsg. reflexivity. }
  unfold webhook_effect.
  destruct req as [[d | ty b] | e].
  2:{ destruct b; apply Hquiet; try reflexivity; intros res []. }
  2:{ apply Hquiet; [reflexivity | intros res []]. }
  destruct (bool_decide (d = ∅)).
  { apply Hquiet; [reflexivity | intros res []]. }
  destruct (body_field d) as [raw | ty shown].
  2:{ apply Hquiet; [reflexivity | intros res []]. }
  destruct (bool_decide (py_strip raw = [])).
  { apply Hquiet; [reflexivity | intros res []]. }
  cbn [new_rows calls]. unfold dispatch_effect.
  destruct (contains (text "link") (py_lower (py_strip raw))).
  { apply Hquiet; [reflexivity|]. apply Hother; [discriminate | intros res []]. }
  destruct (contains (text "summary") (py_lower (py_strip raw))).
  { destruct (sheet_error env); [apply Hquiet; [reflexivity | intros res []]|].
    destruct (read_fault env).
    { apply Hquiet; [reflexivity|]. intros res [H | []]. discriminate H. }
    apply Hquiet; [reflexivity|]. apply Hother.
    - destruct (entries_of (spec_last_rows (sheet w))); [discriminate|].
      rewrite summary_text_head. discriminate.
    - intros res [H | []]. discriminate H. }
  destruct (re_search urgency_pattern (py_strip raw)) as [m|].
  2:{ apply Hquiet; [reflexivity|]. apply Hother; [discriminate | intros res []]. }
  destruct (py_int (m_group1 m)) as [u|].
  2:{ apply Hquiet; [reflexivity | intros res []]. }
  destruct (sheet_error env); [apply Hquiet; [reflexivity | intros res []]|].
  destruct (append_fault env).
  { apply Hquiet; [reflexivity|]. intros res [H | []]. discriminate H. }
  split; intros _.
  - eexists. reflexivity.
  - eexists. right. left. reflexivity.
Qed.

(** In a text of word characters only, the rating is found exactly when
    the whole text is one of the numerals 1..10: "7" and "10" are
    ratings, "7mg", "x7", "007", "100" and "1_0" are not. *)
Theorem rating_in_one_word (s : list N) :
  Forall (fun c => is_word c = true) s ->
  (re_search urgency_pattern s <> None
   <-> exists n, (1 <= n <= 10)%Z /\ s = decimal n).
Proof.
  intros Hw. split.
  - intros Hre. destruct (re_search urgency_pattern s) as [m|] eqn:E; [|congruence].
    apply re_search_some in E as (n & [(Hn & pre & post & Hs & _ & Hb & Ha) _] & _).
    exists n. split; [exact Hn|].
    assert (Hpre : pre = []).
    { destruct (last pre) as [c|] eqn:El; [|apply last_None in El; exact El].
      exfalso. cbn in Hb.
      assert (Hin : c ∈ s).
      { rewrite Hs. apply elem_of_app. left. apply last_Some_elem_of. exact El. }
      rewrite Forall_forall in Hw. rewrite (Hw c Hin) in Hb. discriminate. }
    assert (Hpost : post = []).
    { destruct post as [|c post]; [reflexivity|]. exfalso. cbn in Ha.
      assert (Hin : c ∈ s).
      { rewrite Hs. apply elem_of_app. right. apply elem_of_app. right. left. }
      rewrite Forall_forall in Hw. rewrite (Hw c Hin) in Ha. discriminate. }
    rewrite Hs, Hpre, Hpost, app_nil_r. reflexivity.
  - intros (n & Hn & ->) Hre.
    apply (re_search_none _ Hre 0%nat n).
    split; [exact Hn|]. exists [], []. rewrite app_nil_r. conj_split; reflexivity.
Qed.

Lemma lstrip_head s c : head (lstrip s) = Some c -> py_isspace c = false.
Proof.
  induction s as [|a s IH]; [discriminate|].
  cbn [lstrip]. destruct (py_isspace a) eqn:E; [exact IH|].
  intros [= <-]. exact E.
Qed.

Lemma lstrip_suffix s : exists p, s = p ++ lstrip s.
Proof.
  induction s as [|a s [p IH]]; [exists []; reflexivity|].
  cbn [lstrip]. destruct (py_isspace a).
  - exists (a :: p). cbn. rewrite <- IH. reflexivity.
  - exists []. reflexivity.
Qed.

Lemma last_rev_head {A} (l : list A) : last (rev l) = head l.
Proof.
  destruct l as [|a l]; [reflexivity|]. cbn [rev head]. apply last_snoc.
Qed.

Lemma rstrip_prefix s : exists q, s = rstrip s ++ q.
Proof.
  unfold rstrip. destruct (lstrip_suffix (rev s)) as [p Hp].
  exists (rev p). rewrite <- rev_app_distr, <- Hp, rev_involutive. reflexivity.
Qed.

Lemma strip_edges s :
  (forall c, head (py_strip s) = Some c -> py_isspace c = false)
  /\ (forall c, last (py_strip s) = Some c -> py_isspace c = false).
Proof.
  unfold py_strip. split; intros c Hc.
  - destruct (rstrip_prefix (lstrip s)) as [q Hq].
    apply (lstrip_head s). rewrite Hq.
    destruct (rstrip (lstrip s)); [discriminate Hc | exact Hc].
  - unfold rstrip in Hc. rewrite last_rev_head in Hc.
    exact (lstrip_head _ _ Hc).
Qed.

(** What the webhook hands to [append_row] as the description is never
    empty and neither begins nor ends with whitespace; the date and time
    are those of the request. *)
Theorem stored_body_is_trimmed (env : Env) (req : json_request) (w : World)
    (dt tm b : list N) (u : Z) :
  In (StoreAppend dt tm b u) (issued (android_webhook env req) w) ->
  b <> []
  /\ (forall c, head b = Some c -> py_isspace c = false)
  /\ (forall c, last b = Some c -> py_isspace c = false)
  /\ dt = now_date env /\ tm = now_time env.
Proof.
  intros Hin.
  destruct (webhook_observed env req w) as (_ & _ & Hc). rewrite Hc in Hin.
  destruct (webhook_effect_cases env req (sheet w))
    as [(_ & Hno & _) | (d & raw & _ & _ & Hne & _ & _ & Hcalls)].
  { rewrite Hno in Hin. destruct Hin. }
  rewrite Hcalls in Hin.
  assert (Hb : b = py_strip raw /\ dt = now_date env /\ tm = now_time env).
  { destruct (dispatch_effect_cases env (py_strip raw) (sheet w))
      as [(r & m & E & _) | [(k & m & E & _) | [(i & n & _ & _ & E)
         | [(ex & E & _) | [(ex & E & _) | (ex & i & n & _ & E & _)]]]]];
      rewrite E in Hin; cbn in Hin.
    - destruct Hin as [H | []]. discriminate H.
    - destruct Hin as [H | [H | []]]; discriminate H.
    - destruct Hin as [H | [H | []]]; [|discriminate H].
      injection H as <- <- <- _. conj_split; reflexivity.
    - destruct Hin.
    - destruct Hin as [H | []]. discriminate H.
    - destruct Hin as [H | []].
      injection H as <- <- <- _. conj_split; reflexivity. }
  destruct Hb as (-> & -> & ->).
  conj_split; try reflexivity; try exact Hne; apply strip_edges.
Qed.

End MoreProperties.

(** * The properties at concrete requests *)

#[local] Existing Instance ascii_tables.

(** The scenarios of the documentation. *)

Example link_please :
  fst (android_webhook env_ok (Parsed (PDict (body_only "link please")))
         empty_world)
  = Returned link_response.
Proof. vm_compute. reflexivity. Qed.

Example hello_gets_help :
  android_webhook env_ok (Parsed (PDict (body_only "hello"))) empty_world
  = (Returned help_response,
     add [] [Send help_message (send_outcome env_ok help_message)]
         [(Info, text "Received SMS from unknown: hello");
          send_line env_ok help_message] empty_world).
Proof. vm_compute. reflexivity. Qed.

Example ratings_found :
  map (fun s => option_map m_group1 (re_search urgency_pattern s))
      [text "urgency 7"; text "10/10 pain"; text "1-10"; text "3.5 hours";
       text "7mg"; text "x_7"; text "110"; text "took 100mg at 9"]
  = [Some (text "7"); Some (text "10"); Some (text "1"); Some (text "3");
     None; None; None; Some (text "9")].
Proof. vm_compute. reflexivity. Qed.

Example body_not_a_string :
  fst (android_webhook env_ok
         (Parsed (PDict {[ text "body" := VOther (text "int") (text "7") ]}))
         empty_world)
  = Returned (jsonify 500
      [member "error" (JStr (text "'int' object has no attribute 'strip'"))]).
Proof. vm_compute. reflexivity. Qed.

Example checkin_sent :
  trigger_daily_checkin env_ok (Some (text "s3cret")) empty_world
  = (Returned (jsonify 200 [lit "status" "success";
                            lit "message" "Daily check-in sent"]),
     add [] [Send checkin_prompt (send_outcome env_ok checkin_prompt)]
         [send_line env_ok checkin_prompt] empty_world).
Proof. vm_compute. reflexivity. Qed.

Example quoted_prompt :
  quote (text "Rate urgency (1-10)") = text "Rate%20urgency%20%281-10%29"
  /\ quote check_mark = text "%C3%A2%C5%93%E2%80%A6".
Proof. split; vm_compute; reflexivity. Qed.

(** "Headache today, urgency 7" is logged with urgency 7. *)
Lemma C1_headache_witness :
  body_field (body_only "Headache today, urgency 7")
    = VStr (text "Headache today, urgency 7")
  /\ first_standalone (py_strip (text "Headache today, urgency 7")) 24 7
  /\ appends_work env_ok
  /\ fst (android_webhook env_ok
            (Parsed (PDict (body_only "Headache today, urgency 7"))) empty_world)
     = Returned (logged_response 7).
Proof.
  assert (Hf : first_standalone (py_strip (text "Headache today, urgency 7")) 24 7).
  { apply first_standalone_by_search; [lia | vm_compute; reflexivity]. }
  assert (Hw : appends_work env_ok) by (split; reflexivity).
  split; [reflexivity|]. split; [exact Hf|]. split; [exact Hw|].
  pose proof (proj1 C1_first_rating_is_logged env_ok
                (body_only "Headache today, urgency 7")
                (text "Headache today, urgency 7") empty_world 24%nat 7%Z
                eq_refl eq_refl eq_refl Hf) as (_ & _ & Hrun).
  rewrite (Hrun Hw). reflexivity.
Defined.





Lemma C5_spaces_witness :
  body_field (body_only "   ") = VStr (text "   ")
  /\ blank (text "   ")
  /\ exists r,
       android_webhook env_ok (Parsed (PDict (body_only "   "))) empty_world
       = (Returned r, empty_world)
       /\ status_code r = 400%Z
       /\ issued (android_webhook env_ok (Parsed (PDict (body_only "   "))))
                 empty_world = [].
Proof.
  assert (Hb : blank (text "   ")) by (repeat constructor).
  split; [reflexivity|]. split; [exact Hb|].
  exact (C5_blank_body_rejected env_ok (body_only "   ") (text "   ")
           empty_world eq_refl Hb).
Defined.


Lemma C7_wrong_secret_witness :
  is_set (CRON_SECRET env_ok) = true
  /\ Some (text "guess") <> CRON_SECRET env_ok
  /\ trigger_daily_checkin env_ok (Some (text "guess")) empty_world
     = (Returned (jsonify 403 [lit "error" "Invalid or missing secret"]),
        empty_world)
  /\ issued (trigger_daily_checkin env_ok (Some (text "guess"))) empty_world = [].
Proof.
  assert (Hne : Some (text "guess") <> CRON_SECRET env_ok) by discriminate.
  split; [reflexivity|]. split; [exact Hne|].
  exact (proj1 (proj2 (C7_cron_secret env_ok (Some (text "guess")) empty_world))
           eq_refl Hne).
Defined.



Lemma C9_logged_row_witness :
  let r := PostWebhook (Parsed (PDict (body_only "pain 7"))) in
  In (StoreAppend (text "2024-03-05") (text "08:30:00") (text "pain 7") 7)
     (issued (serve env_ok r) empty_world)
  /\ (1 <= 7 <= 10)%Z
  /\ exists d raw i,
       r = PostWebhook (Parsed (PDict d))
       /\ body_field d = VStr raw
       /\ text "pain 7" = py_strip raw
       /\ first_standalone (text "pain 7") i 7.
Proof.
  intros r.
  assert (Hin : In (StoreAppend (text "2024-03-05") (text "08:30:00")
                      (text "pain 7") 7)
                   (issued (serve env_ok r) empty_world)).
  { vm_compute. left. reflexivity. }
  split; [exact Hin|].
  exact (proj2 (C9_appended_rows env_ok r empty_world) _ _ _ _ Hin).
Defined.

(** The empty object and the object with only a sender: neither has a
    body, both are answered 400, but not with the same JSON. *)
Lemma C10_empty_payload_counterexample :
  let d1 : gmap (list N) pyval := ∅ in
  let d2 : gmap (list N) pyval := {[ text "sender" := VStr (text "+15550100") ]} in
  d1 !! text "body" = d2 !! text "body"
  /\ fst (android_webhook env_ok (Parsed (PDict d1)) empty_world)
     = Returned (jsonify 400 [lit "error" "No JSON payload received"])
  /\ fst (android_webhook env_ok (Parsed (PDict d2)) empty_world)
     = Returned (jsonify 400 [lit "error" "Empty message body"])
  /\ fst (android_webhook env_ok (Parsed (PDict d1)) empty_world)
     <> fst (android_webhook env_ok (Parsed (PDict d2)) empty_world).
Proof.
  intros d1 d2.
  split; [reflexivity|]. split; [vm_compute; reflexivity|].
  split; [vm_compute; reflexivity|].
  vm_compute. discriminate.
Qed.

Lemma C10_sender_witness :
  let d1 : gmap (list N) pyval := body_only "hello" in
  let d2 : gmap (list N) pyval :=
    <[text "sender" := VStr (text "+15550100")]> (body_only "hello") in
  d1 !! text "body" = d2 !! text "body"
  /\ fst (android_webhook env_ok (Parsed (PDict d1)) empty_world)
     = fst (android_webhook env_ok (Parsed (PDict d2)) empty_world)
  /\ issued (android_webhook env_ok (Parsed (PDict d1))) empty_world
     = issued (android_webhook env_ok (Parsed (PDict d2))) empty_world.
Proof.
  intros d1 d2.
  assert (Hb : d1 !! text "body" = d2 !! text "body") by reflexivity.
  split; [exact Hb|].
  destruct (C10_sender_ignored env_ok d1 d2 empty_world Hb)
    as ((r1 & r2 & -> & -> & _ & Hsame) & _ & Hcalls & _).
  split; [|exact Hcalls].
  f_equal. apply Hsame. split; intros H; exfalso.
  - exact (map_non_empty_singleton _ _ H).
  - exact (insert_non_empty _ _ _ H).
Defined.

(** ** The further properties at concrete requests *)

Lemma bad_credentials_witness :
  body_field (body_only "pain 7") = VStr (text "pain 7")
  /\ open_fault env_bad_credentials
     = Some {| e_class := JSONDecodeError;
               e_text := text "Expecting value: line 1 column 1 (char 0)" |}
  /\ android_webhook env_bad_credentials (Parsed (PDict (body_only "pain 7")))
       empty_world
     = (Returned (jsonify 400 [lit "error" "Invalid JSON payload"]),
        add [] [] [received_line (body_only "pain 7") (py_strip (text "pain 7"))]
            empty_world).
Proof.
  split; [reflexivity|]. split; [reflexivity|].
  apply (bad_credentials_reported_as_bad_request env_bad_credentials
           (body_only "pain 7") (text "pain 7") empty_world
           {| e_class := JSONDecodeError;
              e_text := text "Expecting value: line 1 column 1 (char 0)" |});
    try reflexivity; try discriminate.
  right. vm_compute. discriminate.
Defined.

Lemma missing_configuration_witness :
  body_field (body_only "pain 7") = VStr (text "pain 7")
  /\ is_set (GOOGLE_CREDENTIALS env_no_credentials) = false
  /\ fst (android_webhook env_no_credentials
            (Parsed (PDict (body_only "pain 7"))) empty_world)
     = Returned (jsonify 500
         [member "error"
            (JStr (text "GOOGLE_CREDENTIALS environment variable not set"))]).
Proof.
  split; [reflexivity|]. split; [reflexivity|].
  assert (Hneed : contains (text "summary") (py_lower (py_strip (text "pain 7"))) = true
                  \/ re_search urgency_pattern (py_strip (text "pain 7")) <> None).
  { right. vm_compute. discriminate. }
  assert (Hne : py_strip (text "pain 7") <> []) by discriminate.
  exact (proj1 (proj1 (missing_configuration_answer env_no_credentials
                         (body_only "pain 7") (text "pain 7") empty_world
                         eq_refl Hne eq_refl Hneed) eq_refl)).
Defined.

Lemma wrong_type_witness :
  let d : gmap (list N) pyval := {[ text "body" := VOther (text "int") (text "7") ]} in
  d !! text "body" = Some (VOther (text "int") (text "7"))
  /\ fst (android_webhook env_ok (Parsed (PDict d)) empty_world)
     = Returned (jsonify 500
         [member "error" (JStr (text "'int' object has no attribute 'strip'"))]).
Proof.
  intros d.
  assert (Hb : d !! text "body" = Some (VOther (text "int") (text "7")))
    by apply lookup_singleton_eq.
  split; [exact Hb|].
  rewrite (proj2 (wrong_type_is_a_server_error env_ok empty_world) d _ _ Hb).
  reflexivity.
Defined.


Lemma read_back_witness :
  first_standalone (py_strip (text "  pain 7 ")) 5 7
  /\ sheet six_row_world <> []
  /\ exists earlier,
       fst (get_last_entries env_ok 3
              (snd (android_webhook env_ok (Parsed (PDict (body_only "  pain 7 ")))
                      six_row_world)))
       = Returned (earlier ++ [{| date := text "2024-03-05";
                                  time := text "08:30:00";
                                  body := text "pain 7"; urgency := text "7" |}]).
Proof.
  assert (Hf : first_standalone (py_strip (text "  pain 7 ")) 5 7).
  { apply first_standalone_by_search; [lia | vm_compute; reflexivity]. }
  assert (Hne : sheet six_row_world <> []) by discriminate.
  split; [exact Hf|]. split; [exact Hne|].
  exact (logged_entry_is_read_back_last env_ok (body_only "  pain 7 ")
           (text "  pain 7 ") six_row_world 5%nat 7%Z eq_refl eq_refl eq_refl Hf
           (conj eq_refl eq_refl) (conj eq_refl eq_refl) Hne).
Defined.

Lemma first_entry_witness :
  first_standalone (py_strip (text "pain 7")) 5 7
  /\ sheet empty_world = []
  /\ fst (android_webhook env_ok (Parsed (PDict (body_only "Summary")))
            (snd (android_webhook env_ok (Parsed (PDict (body_only "pain 7")))
                    empty_world)))
     = Returned (summary_response 0).
Proof.
  assert (Hf : first_standalone (py_strip (text "pain 7")) 5 7).
  { apply first_standalone_by_search; [lia | vm_compute; reflexivity]. }
  split; [exact Hf|]. split; [reflexivity|].
  exact (proj1 (proj2 (first_entry_taken_for_header env_ok (body_only "pain 7")
                         (body_only "Summary") (text "pain 7") (text "Summary")
                         empty_world 5%nat 7%Z eq_refl eq_refl eq_refl Hf
                         (conj eq_refl eq_refl) (conj eq_refl eq_refl) eq_refl
                         eq_refl eq_refl eq_refl))).
Defined.

Lemma last_two_witness :
  get_last_entries env_ok 2 six_row_world
  = (Returned [sample_entry "2024-03-04" "6"; sample_entry "2024-03-05" "7"],
     add [] [StoreRead] [] six_row_world)
  /\ (length [sample_entry "2024-03-04" "6"; sample_entry "2024-03-05" "7"]
      <= Z.to_nat 2)%nat.
Proof.
  assert (E : get_last_entries env_ok 2 six_row_world
              = (Returned [sample_entry "2024-03-04" "6";
                           sample_entry "2024-03-05" "7"],
                 add [] [StoreRead] [] six_row_world))
    by (vm_compute; reflexivity).
  split; [exact E|].
  exact (proj1 (proj2 (get_last_entries_at_most env_ok 2 six_row_world _ _
                         ltac:(lia) E))).
Defined.

Lemma count_zero_witness :
  get_last_entries env_ok 0 six_row_world
  = (Returned [sample_entry "2024-03-01" "3"; sample_entry "2024-03-02" "4";
               sample_entry "2024-03-03" "5"; sample_entry "2024-03-04" "6";
               sample_entry "2024-03-05" "7"],
     add [] [StoreRead] [] six_row_world)
  /\ [sample_entry "2024-03-01" "3"; sample_entry "2024-03-02" "4";
      sample_entry "2024-03-03" "5"; sample_entry "2024-03-04" "6";
      sample_entry "2024-03-05" "7"]
     = entries_of (drop 1 (sheet six_row_world)).
Proof.
  assert (E : get_last_entries env_ok 0 six_row_world
              = (Returned [sample_entry "2024-03-01" "3"; sample_entry "2024-03-02" "4";
                           sample_entry "2024-03-03" "5"; sample_entry "2024-03-04" "6";
                           sample_entry "2024-03-05" "7"],
                 add [] [StoreRead] [] six_row_world))
    by (vm_compute; reflexivity).
  split; [exact E|].
  exact (get_last_entries_zero_is_all env_ok six_row_world _ _ E).
Defined.

Lemma push_url_witness :
  Forall (fun c => c < 0x110000) logged_message
  /\ Forall (fun c => always_safe c = true \/ c = 47 \/ c = 37)
            (quote logged_message).
Proof.
  assert (H : Forall (fun c => c < 0x110000) logged_message).
  { apply Forall_forall. intros c Hc.
    repeat (apply elem_of_cons in Hc as [-> | Hc]; [reflexivity|]).
    inversion Hc. }
  split; [exact H|].
  exact (proj2 (proj2 (push_url_adds_one_parameter [] logged_message)) H).
Defined.


Lemma one_word_witness :
  Forall (fun c => is_word c = true) (text "100mg")
  /\ (re_search urgency_pattern (text "100mg") <> None
      <-> exists n, (1 <= n <= 10)%Z /\ text "100mg" = decimal n).
Proof.
  assert (H : Forall (fun c => is_word c = true) (text "100mg")).
  { vm_compute. repeat constructor. }
  split; [exact H|].
  exact (rating_in_one_word (text "100mg") H).
Defined.

Lemma stored_body_witness :
  In (StoreAppend (text "2024-03-05") (text "08:30:00") (text "pain 7") 7)
     (issued (android_webhook env_ok (Parsed (PDict (body_only "  pain 7 "))))
             empty_world)
  /\ text "pain 7" <> []
  /\ (forall c, head (text "pain 7") = Some c -> py_isspace c = false)
  /\ (forall c, last (text "pain 7") = Some c -> py_isspace c = false).
Proof.
  assert (Hin : In (StoreAppend (text "2024-03-05") (text "08:30:00")
                      (text "pain 7") 7)
                   (issued (android_webhook env_ok
                              (Parsed (PDict (body_only "  pain 7 "))))
                           empty_world)).
  { vm_compute. left. reflexivity. }
  split; [exact Hin|].
  destruct (stored_body_is_trimmed env_ok _ empty_world _ _ _ _ Hin)
    as (H1 & H2 & H3 & _).
  conj_split; assumption.
Defined.
